(** * OpenID Connect grant types of oauthlib

    A shallow embedding of
    [oauthlib/oauth2/rfc6749/grant_types/openid_connect.py]:
    the token modifier [add_id_token], the authorization validator
    [openid_authorization_validator] and the constructors of the three
    flow classes, followed by the properties the specification states
    about them.

    Python values are modelled as follows.
    - Text is [string]; one [ascii] stands for one character, read as a
      code point below 256.
    - An optional request parameter is an [option]; [None] is Python's
      [None].
    - [request.claims] changes its type in place (text before the
      validator ran, whatever [json.loads] produced afterwards), so it is
      a [pyval].
    - The request is mutated and the request validator is called for its
      answers: the validator is a computation in a state and exception
      monad whose state holds the request and the log of validator calls.
    - An instance of a flow class is its attribute dictionary, a
      [gmap string attr]; a class is the set of names it defines. *)

From Stdlib Require Import ZArith Ascii String.
From stdpp Require Import base option list strings gmap.

#[local] Set Warnings "-clear-no-such-hyp".

(** ** Python values *)

#[local] Unset Elimination Schemes.
Inductive pyval : Type :=
  | PyNone
  | PyBool (b : bool)
  | PyInt (n : Z)
  | PyFloat (m e : Z)
  | PyStr (s : string)
  | PyList (l : list pyval)
  | PyDict (d : list (string * pyval)).
#[local] Set Elimination Schemes.

(** [PyFloat m e] is the decimal [m * 10^e] a JSON number with a fraction
    or an exponent denotes; rounding to a double is not modelled. *)

(** [bool(v)], as used by [if v] and [not v]. *)
Definition truthy (v : pyval) : bool :=
  match v with
  | PyNone => false
  | PyBool b => b
  | PyInt n => negb (n =? 0)%Z
  | PyFloat m _ => negb (m =? 0)%Z
  | PyStr s => negb (String.eqb s "")
  | PyList l => match l with [] => false | _ => true end
  | PyDict d => match d with [] => false | _ => true end
  end.

(** Truth value of an optional text parameter: [None] and [''] are false. *)
Definition truthy_str (o : option string) : bool :=
  match o with
  | None => false
  | Some s => negb (String.eqb s "")
  end.

Definition is_mapping (v : pyval) : bool :=
  match v with
  | PyDict _ => true
  | _ => false
  end.

(** ** [str.split()] *)

(** [c.isspace()] for a unicode character below 256. *)
Definition isspace (c : ascii) : bool :=
  let n := nat_of_ascii c in
  ((9 <=? n) && (n <=? 13)) || ((28 <=? n) && (n <=? 32))
  || (n =? 133) || (n =? 160).

(** [split_from cur s]: the words of [s], where [cur] holds the characters
    of the word being read. *)
Fixpoint split_from (cur : string) (s : string) : list string :=
  match s with
  | EmptyString => match cur with EmptyString => [] | _ => [cur] end
  | String c s' =>
      if isspace c
      then match cur with
           | EmptyString => split_from "" s'
           | _ => cur :: split_from "" s'
           end
      else split_from (cur +:+ String c "") s'
  end.

(** [s.split()] with no separator: runs of whitespace separate the words,
    leading and trailing whitespace gives no empty word. *)
Definition split (s : string) : list string := split_from "" s.

(** [' '.join(ws)] *)
Fixpoint join_space (ws : list string) : string :=
  match ws with
  | [] => ""
  | [w] => w
  | w :: ws' => w +:+ " " +:+ join_space ws'
  end.

Fixpoint string_filter (p : ascii -> bool) (s : string) : string :=
  match s with
  | EmptyString => ""
  | String c s' => if p c then String c (string_filter p s') else string_filter p s'
  end.

Fixpoint string_forallb (p : ascii -> bool) (s : string) : bool :=
  match s with
  | EmptyString => true
  | String c s' => p c && string_forallb p s'
  end.

Fixpoint string_concat (ws : list string) : string :=
  match ws with
  | [] => ""
  | w :: ws' => w +:+ string_concat ws'
  end.

(** A word: not empty and free of whitespace. *)
Definition is_word (w : string) : bool :=
  negb (String.eqb w "") && string_forallb (fun c => negb (isspace c)) w.

(** ** [json.loads]

    The validator decodes [request.claims] with the standard library's
    [json.loads], which is not part of this module: the validator below
    takes the decoder as a parameter [loads : string -> option pyval]
    ([None]: the decoder raises [ValueError]).  [json_loads] is a decoder
    to run the validator with: objects, arrays, strings, numbers, [true],
    [false] and [null] of RFC 8259 in Python's strict mode.  It rejects
    what a [pyval] cannot hold: [NaN], [Infinity] and a [\u] escape of a
    character above 255. *)

Definition is_json_ws (c : ascii) : bool :=
  let n := nat_of_ascii c in
  (n =? 32) || (n =? 9) || (n =? 10) || (n =? 13).

Fixpoint skip_ws (s : string) : string :=
  match s with
  | String c s' => if is_json_ws c then skip_ws s' else s
  | EmptyString => s
  end.

Definition digit_of (c : ascii) : option Z :=
  let n := nat_of_ascii c in
  if (48 <=? n) && (n <=? 57) then Some (Z.of_nat (n - 48)) else None.

Definition hex_of (c : ascii) : option nat :=
  let n := nat_of_ascii c in
  if (48 <=? n) && (n <=? 57) then Some (n - 48)
  else if (65 <=? n) && (n <=? 70) then Some (n - 55)
  else if (97 <=? n) && (n <=? 102) then Some (n - 87)
  else None.

(** Reads a run of digits: the value read onto [acc], the number of
    digits added to [cnt], and the rest. *)
Fixpoint scan_digits (acc cnt : Z) (s : string) : Z * Z * string :=
  match s with
  | String c s' =>
      match digit_of c with
      | Some d => scan_digits (10 * acc + d) (cnt + 1) s'
      | None => (acc, cnt, s)
      end
  | EmptyString => (acc, cnt, s)
  end.

(** A number: an optional minus sign, an integer part without a leading
    zero, an optional fraction (a point and digits), an optional exponent
    (e or E, an optional sign, digits).  The longest match is taken, as
    the decoder's regular expression does; what follows is left for the
    caller. *)
Definition scan_number (s : string) : option (pyval * string) :=
  let '(sign, s1) :=
    match s with
    | String "-"%char s' => ((-1)%Z, s')
    | _ => (1%Z, s)
    end in
  match s1 with
  | EmptyString => None
  | String c s2 =>
      match digit_of c with
      | None => None
      | Some d =>
          let '(ip, _, s3) :=
            if (d =? 0)%Z then (0%Z, 1%Z, s2) else scan_digits d 1 s2 in
          let '(mant, fcnt, s4) :=
            match s3 with
            | String "."%char s' =>
                let '(mf, cf, rest) := scan_digits ip 0 s' in
                if (cf =? 0)%Z then (ip, 0%Z, s3) else (mf, cf, rest)
            | _ => (ip, 0%Z, s3)
            end in
          let exp_at (s' : string) : option (Z * string) :=
            let '(esign, s'') :=
              match s' with
              | String "-"%char t => ((-1)%Z, t)
              | String "+"%char t => (1%Z, t)
              | _ => (1%Z, s')
              end in
            let '(ev, ce, rest) := scan_digits 0 0 s'' in
            if (ce =? 0)%Z then None else Some ((esign * ev)%Z, rest) in
          let ex :=
            match s4 with
            | String "e"%char s' => exp_at s'
            | String "E"%char s' => exp_at s'
            | _ => None
            end in
          match ex with
          | Some (ev, rest) => Some (PyFloat (sign * mant) (ev - fcnt), rest)
          | None =>
              if (fcnt =? 0)%Z then Some (PyInt (sign * ip), s4)
              else Some (PyFloat (sign * mant) (- fcnt), s4)
          end
      end
  end.

Definition unescape (c : ascii) : option ascii :=
  let n := nat_of_ascii c in
  if n =? 34 then Some c                       (* quotation mark *)
  else if n =? 92 then Some c                  (* reverse solidus *)
  else if n =? 47 then Some c                  (* solidus *)
  else if n =? 98 then Some (ascii_of_nat 8)   (* b *)
  else if n =? 102 then Some (ascii_of_nat 12) (* f *)
  else if n =? 110 then Some (ascii_of_nat 10) (* n *)
  else if n =? 114 then Some (ascii_of_nat 13) (* r *)
  else if n =? 116 then Some (ascii_of_nat 9)  (* t *)
  else None.

(** The characters of a string after its opening quotation mark, up to the
    closing one. *)
Fixpoint scan_string (acc : string) (s : string) : option (string * string) :=
  match s with
  | EmptyString => None
  | String c s' =>
      let n := nat_of_ascii c in
      if n =? 34 then Some (acc, s')
      else if n =? 92 then
        match s' with
        | String "u"%char (String h1 (String h2 (String h3 (String h4 s'')))) =>
            match hex_of h1, hex_of h2, hex_of h3, hex_of h4 with
            | Some 0, Some 0, Some a, Some b =>
                scan_string (acc +:+ String (ascii_of_nat (16 * a + b)) "") s''
            | _, _, _, _ => None
            end
        | String e s'' =>
            match unescape e with
            | Some ch => scan_string (acc +:+ String ch "") s''
            | None => None
            end
        | EmptyString => None
        end
      else if n <? 32 then None
      else scan_string (acc +:+ String c "") s'
  end.

(** [d[k] = v] on a dictionary kept as an association list: a key that is
    already there keeps its place and takes the new value. *)
Fixpoint dict_set (k : string) (v : pyval) (d : list (string * pyval))
  : list (string * pyval) :=
  match d with
  | [] => [(k, v)]
  | (k', v') :: d' =>
      if String.eqb k k' then (k, v) :: d' else (k', v') :: dict_set k v d'
  end.

Fixpoint parse_value (fuel : nat) (s : string) : option (pyval * string) :=
  match fuel with
  | O => None
  | S fuel' =>
      match s with
      | EmptyString => None
      | String "n"%char (String "u"%char (String "l"%char (String "l"%char r))) =>
          Some (PyNone, r)
      | String "t"%char (String "r"%char (String "u"%char (String "e"%char r))) =>
          Some (PyBool true, r)
      | String "f"%char (String "a"%char (String "l"%char
          (String "s"%char (String "e"%char r)))) =>
          Some (PyBool false, r)
      | String c s' =>
          let n := nat_of_ascii c in
          if n =? 34 then
            match scan_string "" s' with
            | Some (str, r) => Some (PyStr str, r)
            | None => None
            end
          else if n =? 91 then
            match skip_ws s' with
            | String "]"%char r => Some (PyList [], r)
            | s'' => parse_elements fuel' [] s''
            end
          else if n =? 123 then
            match skip_ws s' with
            | String "}"%char r => Some (PyDict [], r)
            | s'' => parse_members fuel' [] s''
            end
          else scan_number s
      end
  end
with parse_elements (fuel : nat) (acc : list pyval) (s : string)
  : option (pyval * string) :=
  match fuel with
  | O => None
  | S fuel' =>
      match parse_value fuel' s with
      | None => None
      | Some (v, r) =>
          match skip_ws r with
          | String ","%char r' => parse_elements fuel' (acc ++ [v]) (skip_ws r')
          | String "]"%char r' => Some (PyList (acc ++ [v]), r')
          | _ => None
          end
      end
  end
with parse_members (fuel : nat) (acc : list (string * pyval)) (s : string)
  : option (pyval * string) :=
  match fuel with
  | O => None
  | S fuel' =>
      match s with
      | String q s' =>
          if nat_of_ascii q =? 34 then
            match scan_string "" s' with
            | None => None
            | Some (k, r) =>
                match skip_ws r with
                | String ":"%char r' =>
                    match parse_value fuel' (skip_ws r') with
                    | None => None
                    | Some (v, r'') =>
                        match skip_ws r'' with
                        | String ","%char t =>
                            parse_members fuel' (dict_set k v acc) (skip_ws t)
                        | String "}"%char t => Some (PyDict (dict_set k v acc), t)
                        | _ => None
                        end
                    end
                | _ => None
                end
            end
          else None
      | EmptyString => None
      end
  end.

(** [json.loads(s)]: one value, whitespace around it, nothing else. *)
Definition json_loads (s : string) : option pyval :=
  match parse_value (2 * String.length s + 2) (skip_ws s) with
  | Some (v, r) => match skip_ws r with EmptyString => Some v | _ => None end
  | None => None
  end.

(** ** Exceptions and the state monad *)

(** The exceptions of [..errors] the module raises carry the
    [description] keyword argument they were raised with ([None]: none was
    given); [ValueError] and [TypeError] are what [json.loads] raises;
    [AttributeError] is a failed attribute access; [OtherError] is any
    exception a host application's request validator raises. *)
Inductive exn : Type :=
  | InvalidRequestError (description : option string)
  | LoginRequired (description : option string)
  | ConsentRequired (description : option string)
  | ValueError
  | TypeError
  | AttributeError (name : string)
  | OtherError (name : string).

Inductive outcome (A : Type) : Type :=
  | Return (a : A)
  | Raise (e : exn).
Arguments Return {A} a.
Arguments Raise {A} e.

(** A computation over a mutable state [St] that returns an [A] or raises;
    the state it leaves is kept in both cases, as a mutation made before a
    [raise] is. *)
Definition M (St A : Type) : Type := St -> outcome A * St.

Definition ret {St A} (a : A) : M St A := fun st => (Return a, st).

Definition raise {St A} (e : exn) : M St A := fun st => (Raise e, st).

Definition bind {St A B} (m : M St A) (k : A -> M St B) : M St B :=
  fun st =>
    match m st with
    | (Return a, st') => k a st'
    | (Raise e, st') => (Raise e, st')
    end.

Definition get {St} : M St St := fun st => (Return st, st).

Definition modify {St} (f : St -> St) : M St unit := fun st => (Return tt, f st).

Declare Scope py_scope.
Delimit Scope py_scope with py.
Notation "x <- m ;; k" := (bind m (fun x => k))
  (at level 100, m at next level, right associativity) : py_scope.
Notation "m ;; k" := (bind m (fun _ => k))
  (at level 100, right associativity) : py_scope.
Local Open Scope py_scope.

(** [if c: m] with no [else]. *)
Definition when {St} (c : bool) (m : M St unit) : M St unit :=
  if c then m else ret tt.

(** ** The request *)

Record Request : Type := mkRequest {
  scopes : list string;
  prompt : option string;
  display : option string;
  max_age : option Z;
  ui_locales : option string;
  id_token_hint : option string;
  login_hint : option string;
  acr_values : option string;
  claims : pyval;
  response_type : option string;
}.

(** [request.claims = v] *)
Definition set_claims (v : pyval) (r : Request) : Request :=
  {| scopes := scopes r; prompt := prompt r; display := display r;
     max_age := max_age r; ui_locales := ui_locales r;
     id_token_hint := id_token_hint r; login_hint := login_hint r;
     acr_values := acr_values r; claims := v;
     response_type := response_type r |}.

(** ['openid' in request.scopes] *)
Definition has_openid (r : Request) : bool :=
  bool_decide ("openid" ∈ scopes r).

(** [request.prompt == 'none'] *)
Definition prompt_is_none (r : Request) : bool :=
  bool_decide (prompt r = Some "none").

(** ** The request validator *)

(** The three methods of [self.request_validator] the module calls.  A
    method answers from the arguments it is given, or raises. *)
Record RequestValidator : Type := mkRequestValidator {
  validate_silent_login : Request -> outcome bool;
  validate_silent_authorization : Request -> outcome bool;
  validate_user_match :
    option string -> list string -> pyval -> Request -> outcome bool;
}.

(** A call of a validator method, with its arguments. *)
Inductive call : Type :=
  | SilentLogin (r : Request)
  | SilentAuthorization (r : Request)
  | UserMatch (hint : option string) (scs : list string) (cl : pyval)
              (r : Request).

Definition is_silent_authorization (c : call) : bool :=
  match c with SilentAuthorization _ => true | _ => false end.

(** The state of one run of the validator: the request object and the
    calls made on the request validator so far, oldest first. *)
Record pstate : Type := mkPstate {
  request : Request;
  calls : list call;
}.

Definition get_request : M pstate Request :=
  st <- get ;; ret (request st).

Definition log (c : call) : M pstate unit :=
  modify (fun st => {| request := request st; calls := calls st ++ [c] |}).

Definition answer {St} (o : outcome bool) : M St bool :=
  fun st => (o, st).

Definition call_validate_silent_login (rv : RequestValidator) : M pstate bool :=
  r <- get_request ;;
  log (SilentLogin r) ;;
  answer (validate_silent_login rv r).

Definition call_validate_silent_authorization (rv : RequestValidator)
  : M pstate bool :=
  r <- get_request ;;
  log (SilentAuthorization r) ;;
  answer (validate_silent_authorization rv r).

Definition call_validate_user_match (rv : RequestValidator)
    (hint : option string) (scs : list string) (cl : pyval) : M pstate bool :=
  r <- get_request ;;
  log (UserMatch hint scs cl r) ;;
  answer (validate_user_match rv hint scs cl r).

(** ** [OpenIDConnectBase] *)

(** A token is the dictionary the token handler produced. *)
Definition Token : Type := list (string * pyval).

(** [add_id_token(self, token, request)].  The result is [Some] of the
    value returned, or [None] when the body ends without a [return]
    statement, which gives Python's [None]. *)
Definition add_id_token (token : Token) (r : Request) : option Token :=
  if negb (has_openid r) then Some token
  else None.

(** The dictionary [request_info] the validator returns. *)
Record RequestInfo : Type := mkRequestInfo {
  ri_display : option string;
  ri_prompt : list string;
  ri_ui_locales : list string;
  ri_id_token_hint : option string;
  ri_login_hint : option string;
}.

Definition msg_missing_hint : string :=
  "Prompt is set to none yet id_token_hint is missing.".

Definition msg_user_mismatch : string :=
  "Session user does not match client supplied user.".

(** [x.split() if x else []] *)
Definition split_or_empty (o : option string) : list string :=
  if truthy_str o then
    match o with Some s => split s | None => [] end
  else [].

Section Validator.

(** [json.loads] on text: [None] when it raises [ValueError]. *)
Variable loads : string -> option pyval.

(** [loads(v)] on any value: text is decoded, anything else is a
    [TypeError]. *)
Definition loads_value (v : pyval) : M pstate pyval :=
  match v with
  | PyStr s =>
      match loads s with
      | Some v' => ret v'
      | None => raise ValueError
      end
  | _ => raise TypeError
  end.

(** [openid_authorization_validator(self, request)].  The result is
    [None] for the bare [return] and [Some info] for
    [return request_info]. *)
Definition openid_authorization_validator (rv : RequestValidator)
  : M pstate (option RequestInfo) :=
  r <- get_request ;;
  if negb (has_openid r) then ret None
  else
    when (prompt_is_none r && negb (truthy_str (id_token_hint r)))
      (raise (InvalidRequestError (Some msg_missing_hint))) ;;
    when (prompt_is_none r)
      (ok <- call_validate_silent_login rv ;;
       when (negb ok) (raise (LoginRequired None)) ;;
       ok' <- call_validate_silent_authorization rv ;;
       when (negb ok') (raise (ConsentRequired None))) ;;
    r1 <- get_request ;;
    v <- (if truthy (claims r1) then loads_value (claims r1)
          else ret (PyDict [])) ;;
    modify (fun st => {| request := set_claims v (request st);
                         calls := calls st |}) ;;
    r2 <- get_request ;;
    ok <- call_validate_user_match rv
            (id_token_hint r2) (scopes r2) (claims r2) ;;
    when (negb ok) (raise (LoginRequired (Some msg_user_mismatch))) ;;
    r3 <- get_request ;;
    ret (Some {| ri_display := display r3;
                 ri_prompt := split_or_empty (prompt r3);
                 ri_ui_locales := split_or_empty (ui_locales r3);
                 ri_id_token_hint := id_token_hint r3;
                 ri_login_hint := login_hint r3 |}).

(** One run of the validator on a request, from an empty call log. *)
Definition validate (rv : RequestValidator) (r : Request)
  : outcome (option RequestInfo) * pstate :=
  openid_authorization_validator rv {| request := r; calls := [] |}.

End Validator.

(** [openid_implicit_authorization_validator(self, request)]: a bare
    [return] when the response type is ['token'], and the end of the body
    otherwise; [None] either way. *)
Definition openid_implicit_authorization_validator (r : Request)
  : M pstate (option RequestInfo) :=
  if bool_decide (response_type r = Some "token") then ret None
  else ret None.

(** ** The flow classes *)

(** The grant engines [AuthorizationCodeGrant] and [ImplicitGrant] live in
    other modules.  An engine is the request validator it was built with
    and its three registries. *)
Record GrantEngine : Type := mkGrantEngine {
  engine_request_validator : option RequestValidator;
  response_types : list string;
  authorization_validators : list string;
  token_modifiers : list string;
}.

(** Modelled from the spec: the registration methods of the grant engines,
    whose classes are defined in [.authorization_code] and [.implicit].
    Each appends to its registry; a registered callable is recorded by the
    name of the attribute of [self] it was read from. *)
Definition register_response_type (t : string) (e : GrantEngine) : GrantEngine :=
  {| engine_request_validator := engine_request_validator e;
     response_types := response_types e ++ [t];
     authorization_validators := authorization_validators e;
     token_modifiers := token_modifiers e |}.

Definition register_authorization_validator (f : string) (e : GrantEngine)
  : GrantEngine :=
  {| engine_request_validator := engine_request_validator e;
     response_types := response_types e;
     authorization_validators := authorization_validators e ++ [f];
     token_modifiers := token_modifiers e |}.

Definition register_token_modifier (f : string) (e : GrantEngine) : GrantEngine :=
  {| engine_request_validator := engine_request_validator e;
     response_types := response_types e;
     authorization_validators := authorization_validators e;
     token_modifiers := token_modifiers e ++ [f] |}.

(** What an attribute of a flow object holds. *)
Inductive attr : Type :=
  | Validator (rv : RequestValidator)
  | Engine (e : GrantEngine)
  | BoundMethod (name : string).

(** The names the classes of this module define in their bodies. *)
Definition OpenIDConnectBase_names : gset string :=
  {[ "add_id_token"; "openid_authorization_validator" ]}.

Definition OpenIDConnectAuthCode_names : gset string :=
  {[ "__init__"; "create_authorization_response"; "create_token_response";
     "validate_authorization_request" ]}.

Definition OpenIDConnectImplicit_names : gset string :=
  {[ "__init__"; "openid_implicit_authorization_validator" ]}.

Definition OpenIDConnectHybrid_names : gset string :=
  {[ "__init__" ]}.

(** [self.name]: the instance dictionary first, then the classes in method
    resolution order; [AttributeError] when none has the name. *)
Definition getattr (mro : list (gset string)) (name : string)
  : M (gmap string attr) attr :=
  self <- get ;;
  match self !! name with
  | Some a => ret a
  | None =>
      if existsb (fun ns => bool_decide (name ∈ ns)) mro
      then ret (BoundMethod name)
      else raise (AttributeError name)
  end.

(** [self.name = a] *)
Definition setattr (name : string) (a : attr) : M (gmap string attr) unit :=
  modify (insert name a).

(** [self.field.method(...)] for a registration method of the engine held
    in [self.field]: the engine object is updated in place.  Any other
    object has no such method. *)
Definition engine_of (mro : list (gset string)) (field method : string)
  : M (gmap string attr) GrantEngine :=
  a <- getattr mro field ;;
  match a with
  | Engine e => ret e
  | _ => raise (AttributeError method)
  end.

(** [self.field.register_response_type(t)] *)
Definition do_register_response_type (mro : list (gset string))
    (field t : string) : M (gmap string attr) unit :=
  e <- engine_of mro field "register_response_type" ;;
  setattr field (Engine (register_response_type t e)).

(** [self.field.register_authorization_validator(self.f)]: the method of
    the engine is looked up first, then the argument is evaluated. *)
Definition do_register_authorization_validator (mro : list (gset string))
    (field f : string) : M (gmap string attr) unit :=
  e <- engine_of mro field "register_authorization_validator" ;;
  _ <- getattr mro f ;;
  setattr field (Engine (register_authorization_validator f e)).

(** [self.field.register_token_modifier(self.f)] *)
Definition do_register_token_modifier (mro : list (gset string))
    (field f : string) : M (gmap string attr) unit :=
  e <- engine_of mro field "register_token_modifier" ;;
  _ <- getattr mro f ;;
  setattr field (Engine (register_token_modifier f e)).

(** [cls(request_validator)]: a fresh object with an empty dictionary is
    passed to [__init__]; the object is the result unless [__init__]
    raises. *)
Definition construct (init : M (gmap string attr) unit)
  : outcome (gmap string attr) :=
  match init ∅ with
  | (Return _, self) => Return self
  | (Raise e, _) => Raise e
  end.

Section Composers.

(** Every name an attribute lookup finds through the base class
    [GrantTypeBase] of [.base] and its ancestors. *)
Variable GrantTypeBase_names : gset string.

(** [RequestValidator()], the default validator of
    [..request_validator]. *)
Variable RequestValidator_new : RequestValidator.

(** The constructors of the two grant engines, called with the keyword
    argument [request_validator]. *)
Variable AuthorizationCodeGrant : option RequestValidator -> GrantEngine.
Variable ImplicitGrant : option RequestValidator -> GrantEngine.

Definition OpenIDConnectAuthCode_mro : list (gset string) :=
  [OpenIDConnectAuthCode_names; OpenIDConnectBase_names; GrantTypeBase_names].

Definition OpenIDConnectImplicit_mro : list (gset string) :=
  [OpenIDConnectImplicit_names; OpenIDConnectBase_names; GrantTypeBase_names].

Definition OpenIDConnectHybrid_mro : list (gset string) :=
  [OpenIDConnectHybrid_names; OpenIDConnectBase_names; GrantTypeBase_names].

(** [request_validator or RequestValidator()] *)
Definition or_default (request_validator : option RequestValidator)
  : RequestValidator :=
  match request_validator with
  | Some rv => rv
  | None => RequestValidator_new
  end.

(** [OpenIDConnectAuthCode.__init__] *)
Definition OpenIDConnectAuthCode_init
    (request_validator : option RequestValidator)
  : M (gmap string attr) unit :=
  let mro := OpenIDConnectAuthCode_mro in
  setattr "request_validator" (Validator (or_default request_validator)) ;;
  setattr "auth_code" (Engine (AuthorizationCodeGrant request_validator)) ;;
  do_register_authorization_validator mro "auth_code"
    "openid_authorization_validator" ;;
  do_register_token_modifier mro "auth_code" "add_id_token".

(** [OpenIDConnectImplicit.__init__] *)
Definition OpenIDConnectImplicit_init
    (request_validator : option RequestValidator)
  : M (gmap string attr) unit :=
  let mro := OpenIDConnectImplicit_mro in
  setattr "request_validator" (Validator (or_default request_validator)) ;;
  setattr "implicit" (Engine (ImplicitGrant request_validator)) ;;
  do_register_response_type mro "implicit" "id_token" ;;
  do_register_response_type mro "implicit" "id_token token" ;;
  do_register_authorization_validator mro "implicit"
    "openid_authorization_validator" ;;
  do_register_authorization_validator mro "implicit"
    "openid_implicit_authorization_validator" ;;
  do_register_token_modifier mro "implicit" "create_id_token".

(** [OpenIDConnectHybrid.__init__] *)
Definition OpenIDConnectHybrid_init
    (request_validator : option RequestValidator)
  : M (gmap string attr) unit :=
  let mro := OpenIDConnectHybrid_mro in
  setattr "request_validator" (Validator (or_default request_validator)) ;;
  setattr "auth_code" (Engine (AuthorizationCodeGrant request_validator)) ;;
  do_register_response_type mro "auth_code" "code id_token" ;;
  do_register_response_type mro "auth_code" "code token" ;;
  do_register_response_type mro "auth_code" "code id_token token" ;;
  do_register_authorization_validator mro "auth_code"
    "openid_authorization_validator" ;;
  do_register_token_modifier mro "auth_code" "add_id_token" ;;
  setattr "implicit" (Engine (ImplicitGrant request_validator)) ;;
  do_register_response_type mro "implicit" "id_token" ;;
  do_register_response_type mro "implicit" "id_token token" ;;
  do_register_authorization_validator mro "implicit"
    "openid_authorization_validator" ;;
  do_register_authorization_validator mro "implicit"
    "openid_implicit_authorization_validator" ;;
  do_register_token_modifier mro "implicit" "create_id_token".

Definition OpenIDConnectAuthCode (request_validator : option RequestValidator)
  : outcome (gmap string attr) :=
  construct (OpenIDConnectAuthCode_init request_validator).

Definition OpenIDConnectImplicit (request_validator : option RequestValidator)
  : outcome (gmap string attr) :=
  construct (OpenIDConnectImplicit_init request_validator).

Definition OpenIDConnectHybrid (request_validator : option RequestValidator)
  : outcome (gmap string attr) :=
  construct (OpenIDConnectHybrid_init request_validator).

End Composers.

(** ** Notions the properties are stated with *)

(** The request passes the [prompt == 'none'] block of the validator:
    either the block does not apply, or the hint is there and both silent
    checks answer true. *)
Definition passes_prompt_checks (rv : RequestValidator) (r : Request) : Prop :=
  prompt r <> Some "none"
  \/ (prompt r = Some "none"
      /\ truthy_str (id_token_hint r) = true
      /\ validate_silent_login rv r = Return true
      /\ validate_silent_authorization rv r = Return true).

(** The calls the [prompt == 'none'] block makes when it is passed. *)
Definition prompt_calls (r : Request) : list call :=
  if prompt_is_none r then [SilentLogin r; SilentAuthorization r] else [].

(** What [loads(request.claims) if request.claims else {}] evaluates to. *)
Definition decode_claims (loads : string -> option pyval) (v : pyval)
  : outcome pyval :=
  if truthy v then
    match v with
    | PyStr s =>
        match loads s with
        | Some v' => Return v'
        | None => Raise ValueError
        end
    | _ => Raise TypeError
    end
  else Return (PyDict []).

(** The [request_info] built from a request. *)
Definition request_info_of (r : Request) : RequestInfo :=
  {| ri_display := display r;
     ri_prompt := split_or_empty (prompt r);
     ri_ui_locales := split_or_empty (ui_locales r);
     ri_id_token_hint := id_token_hint r;
     ri_login_hint := login_hint r |}.

(** ** Sample requests and validators *)

(** A request with the given scopes, prompt, hint, locales and claims and
    nothing else. *)
Definition sample_request (scs : list string) (p hint locales : option string)
    (cl : pyval) : Request :=
  {| scopes := scs; prompt := p; display := None; max_age := None;
     ui_locales := locales; id_token_hint := hint; login_hint := None;
     acr_values := None; claims := cl; response_type := Some "code" |}.

(** A request validator with fixed answers. *)
Definition answering (login consent user : bool) : RequestValidator :=
  {| validate_silent_login := fun _ => Return login;
     validate_silent_authorization := fun _ => Return consent;
     validate_user_match := fun _ _ _ _ => Return user |}.

(** A validator in the manner of the default one, whose methods all raise
    [NotImplementedError]. *)
Definition unimplemented : RequestValidator :=
  {| validate_silent_login := fun _ => Raise (OtherError "NotImplementedError");
     validate_silent_authorization :=
       fun _ => Raise (OtherError "NotImplementedError");
     validate_user_match :=
       fun _ _ _ _ => Raise (OtherError "NotImplementedError") |}.

(** A grant engine as its constructor leaves it. *)
Definition fresh_engine (types : list string)
    (request_validator : option RequestValidator) : GrantEngine :=
  {| engine_request_validator := request_validator;
     response_types := types;
     authorization_validators := [];
     token_modifiers := [] |}.

(** The methods of [GrantTypeBase] that the flow classes inherit. *)
Definition sample_base_names : gset string :=
  {[ "create_authorization_response"; "create_token_response";
     "validate_grant_type"; "validate_scopes" ]}.

Definition silent_request : Request :=
  sample_request ["openid"] (Some "none") (Some "previous-id-token") None
    PyNone.

Definition hintless_request : Request :=
  sample_request ["openid"; "profile"] (Some "none") (Some "") None PyNone.

Definition plain_request : Request :=
  sample_request ["profile"] None None None (PyStr "{}").

Definition interactive_request : Request :=
  sample_request ["openid"] (Some "login consent") None (Some "fr-CA fr en")
    (PyStr "").

Definition array_claims_request : Request :=
  sample_request ["openid"] None None None (PyStr "[1]").

Definition malformed_request : Request :=
  sample_request ["openid"] None None None (PyStr "{").

(** A piece of text between quotation marks. *)
Definition quoted (s : string) : string :=
  String (ascii_of_nat 34) s +:+ String (ascii_of_nat 34) "".

(** The claims parameter asking for the time of authentication in the
    identity token. *)
Definition claims_text : string :=
  "{" +:+ quoted "id_token" +:+ ": {" +:+ quoted "auth_time" +:+ ": null}}".

Definition claims_request : Request :=
  sample_request ["openid"] (Some "login") None None (PyStr claims_text).

Definition sample_token : Token :=
  [("access_token", PyStr "2YotnFZFEjr1zCsicMWpAA");
   ("token_type", PyStr "Bearer")].

(** ASCII letters in lower case, as [str.lower()] gives them. *)
Definition lower_ascii (c : ascii) : ascii :=
  let n := nat_of_ascii c in
  if (65 <=? n) && (n <=? 90) then ascii_of_nat (n + 32) else c.

Fixpoint lower (s : string) : string :=
  match s with
  | EmptyString => ""
  | String c s' => String (lower_ascii c) (lower s')
  end.

(** ** The runs of the validator, case by case *)

(** The end of a run, from the decoding of the claims on; [cs] are the
    calls made before. *)
Definition finish_run (loads : string -> option pyval) (rv : RequestValidator)
    (r : Request) (cs : list call) : outcome (option RequestInfo) * pstate :=
  match decode_claims loads (claims r) with
  | Raise e => (Raise e, {| request := r; calls := cs |})
  | Return v =>
      let r' := set_claims v r in
      let st := {| request := r';
                   calls := cs ++ [UserMatch (id_token_hint r) (scopes r) v r'] |} in
      match validate_user_match rv (id_token_hint r) (scopes r) v r' with
      | Return true => (Return (Some (request_info_of r)), st)
      | Return false => (Raise (LoginRequired (Some msg_user_mismatch)), st)
      | Raise e => (Raise e, st)
      end
  end.

(** Every run of the validator, as a tree of the tests it makes. *)
Definition validate_cases (loads : string -> option pyval)
    (rv : RequestValidator) (r : Request)
  : outcome (option RequestInfo) * pstate :=
  if has_openid r then
    if prompt_is_none r then
      if truthy_str (id_token_hint r) then
        match validate_silent_login rv r with
        | Return true =>
            match validate_silent_authorization rv r with
            | Return true =>
                finish_run loads rv r [SilentLogin r; SilentAuthorization r]
            | Return false =>
                (Raise (ConsentRequired None),
                 {| request := r;
                    calls := [SilentLogin r; SilentAuthorization r] |})
            | Raise e =>
                (Raise e,
                 {| request := r;
                    calls := [SilentLogin r; SilentAuthorization r] |})
            end
        | Return false =>
            (Raise (LoginRequired None),
             {| request := r; calls := [SilentLogin r] |})
        | Raise e => (Raise e, {| request := r; calls := [SilentLogin r] |})
        end
      else (Raise (InvalidRequestError (Some msg_missing_hint)),
            {| request := r; calls := [] |})
    else finish_run loads rv r []
  else (Return None, {| request := r; calls := [] |}).

Definition blank_prompt_request : Request :=
  sample_request ["openid"] (Some "  ") None None PyNone.

Definition mixed_prompt_request : Request :=
  sample_request ["openid"] (Some "none login") None None PyNone.

(** A request validator whose methods always answer, and never raise. *)
Definition answers_only (rv : RequestValidator) : Prop :=
  (forall r, exists b, validate_silent_login rv r = Return b)
  /\ (forall r, exists b, validate_silent_authorization rv r = Return b)
  /\ (forall h scs cl r, exists b, validate_user_match rv h scs cl r = Return b).

(** Text made of whitespace only. *)
Definition is_blank (s : string) : bool := string_forallb isspace s.

(** * Properties *)

(** ** Text *)

Lemma append_nil_l (t : string) : "" +:+ t = t.
Proof. reflexivity. Qed.

Lemma append_cons (c : ascii) (s t : string) :
  String c s +:+ t = String c (s +:+ t).
Proof. reflexivity. Qed.

Lemma append_nil_r (s : string) : s +:+ "" = s.
Proof.
  induction s as [|c s IH]; [done |]. by rewrite append_cons, IH.
Qed.

Lemma append_assoc (s t u : string) : (s +:+ t) +:+ u = s +:+ (t +:+ u).
Proof.
  induction s as [|c s IH]; [done |]. by rewrite !append_cons, IH.
Qed.

Lemma string_forallb_app (p : ascii -> bool) (s t : string) :
  string_forallb p (s +:+ t) = string_forallb p s && string_forallb p t.
Proof.
  induction s as [|c s IH]; [done |].
  rewrite append_cons. simpl. rewrite IH. by destruct (p c).
Qed.

(** Every word [split] returns is a word: not empty, no whitespace. *)
Lemma split_from_words (s cur : string) :
  string_forallb (fun c => negb (isspace c)) cur = true ->
  Forall (fun w => is_word w = true) (split_from cur s).
Proof.
  revert cur. induction s as [|c s IH]; intros cur Hcur; simpl.
  - destruct cur as [|a cur]; [constructor |].
    constructor; [| constructor]. unfold is_word. by rewrite Hcur.
  - destruct (isspace c) eqn:Hc.
    + destruct cur as [|a cur]; [by apply IH |].
      constructor; [| by apply IH]. unfold is_word. by rewrite Hcur.
    + apply IH. rewrite string_forallb_app, Hcur. simpl. by rewrite Hc.
Qed.

Lemma split_words (s : string) : Forall (fun w => is_word w = true) (split s).
Proof. by apply split_from_words. Qed.

(** The words, in their order, are the text with the whitespace taken
    out. *)
Lemma split_from_concat (s cur : string) :
  string_concat (split_from cur s)
  = cur +:+ string_filter (fun c => negb (isspace c)) s.
Proof.
  revert cur. induction s as [|c s IH]; intros cur; simpl.
  - by destruct cur.
  - destruct (isspace c) eqn:Hc; simpl.
    + destruct cur as [|a cur]; simpl; by rewrite IH.
    + by rewrite IH, append_assoc.
Qed.

Lemma split_concat (s : string) :
  string_concat (split s) = string_filter (fun c => negb (isspace c)) s.
Proof. unfold split. by rewrite split_from_concat. Qed.

Lemma split_from_app_word (w cur rest : string) :
  string_forallb (fun c => negb (isspace c)) w = true ->
  split_from cur (w +:+ rest) = split_from (cur +:+ w) rest.
Proof.
  revert cur. induction w as [|c w IH]; intros cur Hw.
  - by rewrite append_nil_l, append_nil_r.
  - simpl in Hw. apply andb_prop in Hw as [Hc Hw].
    apply negb_true_iff in Hc. rewrite append_cons. simpl.
    rewrite Hc, IH by done. by rewrite append_assoc.
Qed.

(** Words joined by single spaces are split into the same words. *)
Lemma split_join_space (ws : list string) :
  Forall (fun w => is_word w = true) ws -> split (join_space ws) = ws.
Proof.
  unfold split. induction ws as [|w ws IH]; intros Hws; [done |].
  apply Forall_cons in Hws as [Hw Hws]. specialize (IH Hws).
  unfold is_word in Hw. apply andb_prop in Hw as [Hne Hw].
  assert (Hstep : forall rest,
    split_from w (String " " rest) = w :: split_from "" rest).
  { intros rest. simpl. by destruct w. }
  destruct ws as [|w' ws].
  - simpl. rewrite <- (append_nil_r w) at 1.
    rewrite split_from_app_word, append_nil_l by done. simpl. by destruct w.
  - change (join_space (w :: w' :: ws))
      with (w +:+ String " " (join_space (w' :: ws))).
    by rewrite split_from_app_word, append_nil_l, Hstep, IH.
Qed.

Lemma split_or_empty_spec (o : option string) :
  split_or_empty o = match o with Some s => split s | None => [] end.
Proof.
  destruct o as [s|]; [| done]. unfold split_or_empty, truthy_str.
  by destruct (String.eqb_spec s "") as [->|].
Qed.

(** ** The authorization validator *)

Lemma has_openid_true (r : Request) : "openid" ∈ scopes r -> has_openid r = true.
Proof. intros H. by apply bool_decide_eq_true_2. Qed.

Lemma has_openid_false (r : Request) : "openid" ∉ scopes r -> has_openid r = false.
Proof. intros H. by apply bool_decide_eq_false_2. Qed.

Lemma prompt_is_none_true (r : Request) :
  prompt r = Some "none" -> prompt_is_none r = true.
Proof. intros H. by apply bool_decide_eq_true_2. Qed.

Lemma prompt_is_none_false (r : Request) :
  prompt r <> Some "none" -> prompt_is_none r = false.
Proof. intros H. by apply bool_decide_eq_false_2. Qed.

Lemma truthy_str_false (o : option string) :
  truthy_str o = false <-> o = None \/ o = Some "".
Proof.
  destruct o as [s|]; simpl.
  - destruct (String.eqb_spec s "") as [->|Hne]; simpl.
    + split; [by right | done].
    + split; [done |]. intros [?|[=]]; [done | by subst].
  - split; [by left | done].
Qed.

(** Unfolds one run of the validator down to the tests it makes. *)
Ltac run_validator :=
  unfold validate, openid_authorization_validator,
    call_validate_silent_login, call_validate_silent_authorization,
    call_validate_user_match, loads_value, log, answer, get_request,
    when, bind, get, modify, ret, raise;
  simpl.

Section ValidatorProperties.

Variable loads : string -> option pyval.
Variable rv : RequestValidator.

(** The early return for a request that is not an OpenID Connect one. *)
Lemma validate_without_openid (r : Request) :
  "openid" ∉ scopes r ->
  validate loads rv r = (Return None, {| request := r; calls := [] |}).
Proof.
  intros Hno. apply has_openid_false in Hno. run_validator. by rewrite Hno.
Qed.

(** C4. A request without the scope [openid]: the validator returns
    [None] at once, calls no method of the request validator and leaves
    the request as it was, and [add_id_token] returns the token it was
    given. *)
Theorem no_openid_is_noop (r : Request) (token : Token) :
  "openid" ∉ scopes r ->
  validate loads rv r = (Return None, {| request := r; calls := [] |})
  /\ add_id_token token r = Some token.
Proof.
  intros Hno. split; [by apply validate_without_openid |].
  unfold add_id_token. by rewrite (has_openid_false r Hno).
Qed.

(** C2. With [openid] in the scopes, [prompt] equal to ['none'] and
    [id_token_hint] absent or empty, the validator raises
    [InvalidRequestError]; no method of the request validator has been
    called and no other field of the request is looked at. *)
Theorem prompt_none_requires_hint (r : Request) :
  "openid" ∈ scopes r ->
  prompt r = Some "none" ->
  id_token_hint r = None \/ id_token_hint r = Some "" ->
  validate loads rv r
  = (Raise (InvalidRequestError (Some msg_missing_hint)),
     {| request := r; calls := [] |}).
Proof.
  intros Hin Hp Hh. apply has_openid_true in Hin.
  apply prompt_is_none_true in Hp. apply truthy_str_false in Hh.
  run_validator. by rewrite Hin, Hp, Hh.
Qed.

(** C1. With [openid] in the scopes, [prompt] equal to ['none'] and an
    [id_token_hint], a silent login check that answers false makes the
    validator raise [LoginRequired]; the only call made on the request
    validator is that check, so [validate_silent_authorization] is not
    called. *)
Theorem silent_login_before_consent (r : Request) (hint : string) :
  "openid" ∈ scopes r ->
  prompt r = Some "none" ->
  id_token_hint r = Some hint -> hint <> "" ->
  validate_silent_login rv r = Return false ->
  fst (validate loads rv r) = Raise (LoginRequired None)
  /\ calls (snd (validate loads rv r)) = [SilentLogin r]
  /\ forall c, c ∈ calls (snd (validate loads rv r)) ->
       is_silent_authorization c = false.
Proof.
  intros Hin Hp Hh Hne Hlogin. apply has_openid_true in Hin.
  apply prompt_is_none_true in Hp.
  assert (Ht : truthy_str (id_token_hint r) = true).
  { rewrite Hh. simpl. by destruct (String.eqb_spec hint ""). }
  assert (Hrun : validate loads rv r
    = (Raise (LoginRequired None),
       {| request := r; calls := [SilentLogin r] |})).
  { run_validator. rewrite Hin, Hp, Ht. simpl. by rewrite Hlogin. }
  rewrite Hrun. simpl. split_and!; [done | done |].
  intros c Hc. apply list_elem_of_singleton in Hc. by subst c.
Qed.

(** C3. With [openid] in the scopes, [prompt] equal to ['none'] and an
    [id_token_hint], a silent login check that answers true followed by
    a silent authorization check that answers false makes the validator
    raise [ConsentRequired]. *)
Theorem silent_authorization_refused (r : Request) (hint : string) :
  "openid" ∈ scopes r ->
  prompt r = Some "none" ->
  id_token_hint r = Some hint -> hint <> "" ->
  validate_silent_login rv r = Return true ->
  validate_silent_authorization rv r = Return false ->
  validate loads rv r
  = (Raise (ConsentRequired None),
     {| request := r; calls := [SilentLogin r; SilentAuthorization r] |}).
Proof.
  intros Hin Hp Hh Hne Hlogin Hauth. apply has_openid_true in Hin.
  apply prompt_is_none_true in Hp.
  assert (Ht : truthy_str (id_token_hint r) = true).
  { rewrite Hh. simpl. by destruct (String.eqb_spec hint ""). }
  run_validator. rewrite Hin, Hp, Ht. simpl. rewrite Hlogin. simpl.
  by rewrite Hauth.
Qed.

(** The run of the validator on a request with [openid] that passes the
    [prompt == 'none'] block, spelt out: the claims are decoded and
    stored, then the user match is asked. *)
Lemma validate_after_prompt_checks (r : Request) :
  "openid" ∈ scopes r ->
  passes_prompt_checks rv r ->
  validate loads rv r
  = match decode_claims loads (claims r) with
    | Raise e => (Raise e, {| request := r; calls := prompt_calls r |})
    | Return v =>
        let r' := set_claims v r in
        let st := {| request := r';
                     calls := prompt_calls r
                              ++ [UserMatch (id_token_hint r) (scopes r) v r'] |} in
        match validate_user_match rv (id_token_hint r) (scopes r) v r' with
        | Return true => (Return (Some (request_info_of r)), st)
        | Return false => (Raise (LoginRequired (Some msg_user_mismatch)), st)
        | Raise e => (Raise e, st)
        end
    end.
Proof.
  intros Hin Hpass. apply has_openid_true in Hin.
  unfold prompt_calls, decode_claims.
  destruct Hpass as [Hp | (Hp & Ht & Hlogin & Hauth)].
  - apply prompt_is_none_false in Hp. run_validator. rewrite Hin, Hp. simpl.
    destruct (truthy (claims r)); simpl.
    + destruct (claims r) as [| | | | s | |]; simpl; try done.
      destruct (loads s) as [v|]; simpl; [| done].
      by destruct (validate_user_match rv _ _ v _) as [[|]|].
    + by destruct (validate_user_match rv _ _ _ _) as [[|]|].
  - apply prompt_is_none_true in Hp. run_validator.
    rewrite Hin, Hp, Ht. simpl. rewrite Hlogin. simpl. rewrite Hauth. simpl.
    destruct (truthy (claims r)); simpl.
    + destruct (claims r) as [| | | | s | |]; simpl; try done.
      destruct (loads s) as [v|]; simpl; [| done].
      by destruct (validate_user_match rv _ _ v _) as [[|]|].
    + by destruct (validate_user_match rv _ _ _ _) as [[|]|].
Qed.

(** C7. On a request with [openid] that passes the [prompt == 'none']
    block: absent or empty claims are replaced by the empty dictionary,
    which is what the user match is then asked about; claims that
    [json.loads] rejects make the validator raise the decoder's
    [ValueError] itself, with the request unchanged and the user match
    not asked. *)
Theorem claims_parsed_or_failure_propagates (r : Request) :
  "openid" ∈ scopes r ->
  passes_prompt_checks rv r ->
  (claims r = PyNone \/ claims r = PyStr "" ->
     let r' := set_claims (PyDict []) r in
     snd (validate loads rv r)
     = {| request := r';
          calls := prompt_calls r
                   ++ [UserMatch (id_token_hint r) (scopes r) (PyDict []) r'] |})
  /\ (forall s, claims r = PyStr s -> s <> "" -> loads s = None ->
        validate loads rv r
        = (Raise ValueError, {| request := r; calls := prompt_calls r |})).
Proof.
  intros Hin Hpass. rewrite (validate_after_prompt_checks r Hin Hpass). split.
  - intros [Hc | Hc]; rewrite Hc; simpl;
      by destruct (validate_user_match rv _ _ _ _) as [[|]|].
  - intros s Hc Hne Hl. rewrite Hc. unfold decode_claims. simpl.
    destruct (String.eqb_spec s "") as [|_]; [done |]. simpl. by rewrite Hl.
Qed.

(** C8. On a request with [openid] that passes the [prompt == 'none']
    block and whose claims decode to [v], whatever its [prompt]: the
    user match is asked about the hint, the scopes, [v] and the request
    holding [v], and when it answers false the validator raises
    [LoginRequired] with a description of its own, which the
    [LoginRequired] of the silent login check does not carry.  The
    description reads "session user does not match client supplied
    user" up to the case of its first letter and its final full stop. *)
Theorem user_mismatch_is_login_required (r : Request) (v : pyval) :
  "openid" ∈ scopes r ->
  passes_prompt_checks rv r ->
  decode_claims loads (claims r) = Return v ->
  validate_user_match rv (id_token_hint r) (scopes r) v (set_claims v r)
  = Return false ->
  validate loads rv r
  = (Raise (LoginRequired (Some msg_user_mismatch)),
     {| request := set_claims v r;
        calls := prompt_calls r
                 ++ [UserMatch (id_token_hint r) (scopes r) v
                               (set_claims v r)] |})
  /\ LoginRequired (Some msg_user_mismatch) <> LoginRequired None
  /\ lower msg_user_mismatch
     = "session user does not match client supplied user" +:+ ".".
Proof.
  intros Hin Hpass Hdec Hmatch.
  rewrite (validate_after_prompt_checks r Hin Hpass), Hdec. simpl.
  by rewrite Hmatch.
Qed.

(** C9, as amended. On a request with [openid] whose [prompt] is not
    ['none'] without a hint, whose claims decode to [v], and for which
    every call made on the request validator answers true, the validator
    returns a [request_info]: [prompt] and [ui_locales] are the words of
    the request's fields in their order, and the empty list when the
    field is absent; [display], [id_token_hint] and [login_hint] are
    copied; the request holds the decoded claims afterwards. *)
Theorem request_info_returned (r : Request) (v : pyval) :
  "openid" ∈ scopes r ->
  (prompt r = Some "none" -> truthy_str (id_token_hint r) = true) ->
  (prompt r = Some "none" ->
     validate_silent_login rv r = Return true
     /\ validate_silent_authorization rv r = Return true) ->
  decode_claims loads (claims r) = Return v ->
  validate_user_match rv (id_token_hint r) (scopes r) v (set_claims v r)
  = Return true ->
  fst (validate loads rv r)
  = Return (Some
      {| ri_display := display r;
         ri_prompt := match prompt r with Some s => split s | None => [] end;
         ri_ui_locales :=
           match ui_locales r with Some s => split s | None => [] end;
         ri_id_token_hint := id_token_hint r;
         ri_login_hint := login_hint r |})
  /\ claims (request (snd (validate loads rv r))) = v.
Proof.
  intros Hin Hhint Hsilent Hdec Hmatch.
  assert (Hpass : passes_prompt_checks rv r).
  { destruct (decide (prompt r = Some "none")) as [Hp|Hp]; [right | by left].
    destruct (Hsilent Hp). auto. }
  rewrite (validate_after_prompt_checks r Hin Hpass), Hdec. simpl.
  rewrite Hmatch. simpl. split; [| done].
  unfold request_info_of. by rewrite !split_or_empty_spec.
Qed.

(** A run that returns passed the [prompt == 'none'] block. *)
Lemma validate_returns_passes (r : Request) (res : option RequestInfo)
    (st : pstate) :
  "openid" ∈ scopes r ->
  validate loads rv r = (Return res, st) ->
  passes_prompt_checks rv r.
Proof.
  intros Hin Hrun. apply has_openid_true in Hin.
  destruct (decide (prompt r = Some "none")) as [Hp|Hp]; [right | by left].
  pose proof (prompt_is_none_true r Hp) as Hp'.
  revert Hrun. run_validator. rewrite Hin, Hp'. simpl.
  destruct (truthy_str (id_token_hint r)); simpl; [| done].
  destruct (validate_silent_login rv r) as [[|]|]; simpl; try done.
  destruct (validate_silent_authorization rv r) as [[|]|]; simpl; try done.
Qed.

(** C6, as amended. After a run of the validator that returns: a request
    without [openid] holds the claims it came with; a request with
    [openid] holds what [loads(request.claims) if request.claims else {}]
    gave, which is the empty dictionary for absent or empty claims and
    the decoded text otherwise, hence a dictionary when the text encodes
    a JSON object. *)
Theorem claims_after_validation (r : Request) (res : option RequestInfo)
    (st : pstate) :
  validate loads rv r = (Return res, st) ->
  ("openid" ∉ scopes r -> res = None /\ claims (request st) = claims r)
  /\ ("openid" ∈ scopes r ->
        decode_claims loads (claims r) = Return (claims (request st))
        /\ (claims r = PyNone \/ claims r = PyStr "" ->
              claims (request st) = PyDict [])
        /\ (forall s, claims r = PyStr s -> s <> "" ->
              loads s = Some (claims (request st)))
        /\ (forall s d, claims r = PyStr s -> s <> "" ->
              loads s = Some (PyDict d) ->
              is_mapping (claims (request st)) = true)).
Proof.
  intros Hrun. split.
  - intros Hno. rewrite (validate_without_openid r Hno) in Hrun.
    by inversion Hrun.
  - intros Hin. pose proof (validate_returns_passes r res st Hin Hrun) as Hpass.
    rewrite (validate_after_prompt_checks r Hin Hpass) in Hrun.
    assert (Hdec : decode_claims loads (claims r)
                   = Return (claims (request st))).
    { destruct (decode_claims loads (claims r)) as [v|e]; [| done].
      simpl in Hrun.
      destruct (validate_user_match rv _ _ _ _) as [[|]|];
        inversion Hrun; by subst. }
    split_and!; [done | | |].
    + intros [Hc|Hc]; rewrite Hc in Hdec; by inversion Hdec.
    + intros s Hc Hne. rewrite Hc in Hdec. unfold decode_claims in Hdec.
      simpl in Hdec. destruct (String.eqb_spec s "") as [|_]; [done |].
      simpl in Hdec. destruct (loads s); by inversion Hdec.
    + intros s d Hc Hne Hl. rewrite Hc in Hdec. unfold decode_claims in Hdec.
      simpl in Hdec. destruct (String.eqb_spec s "") as [|_]; [done |].
      simpl in Hdec. rewrite Hl in Hdec. injection Hdec as Heq.
      by rewrite <- Heq.
Qed.

End ValidatorProperties.

(** ** The token modifier *)

(** With [openid] in the scopes [add_id_token] reaches the end of its
    body, where the notes on what is still to do stand, and returns no
    token. *)
Lemma add_id_token_openid (token : Token) (r : Request) :
  "openid" ∈ scopes r -> add_id_token token r = None.
Proof.
  intros Hin. unfold add_id_token. by rewrite (has_openid_true r Hin).
Qed.

(** ** The flow classes *)

Lemma getattr_field (mro : list (gset string)) (name : string)
    (self : gmap string attr) (a : attr) :
  self !! name = Some a -> getattr mro name self = (Return a, self).
Proof. intros H. unfold getattr, bind, get, ret. by rewrite H. Qed.

Lemma getattr_method (mro : list (gset string)) (name : string)
    (self : gmap string attr) :
  self !! name = None ->
  existsb (fun ns => bool_decide (name ∈ ns)) mro = true ->
  getattr mro name self = (Return (BoundMethod name), self).
Proof. intros H E. unfold getattr, bind, get, ret. by rewrite H, E. Qed.

Lemma getattr_missing (mro : list (gset string)) (name : string)
    (self : gmap string attr) :
  self !! name = None ->
  existsb (fun ns => bool_decide (name ∈ ns)) mro = false ->
  getattr mro name self = (Raise (AttributeError name), self).
Proof. intros H E. unfold getattr, bind, get, raise. by rewrite H, E. Qed.

Lemma bind_run {St A B} (m : M St A) (k : A -> M St B) (st st' : St) (a : A) :
  m st = (Return a, st') -> bind m k st = k a st'.
Proof. intros H. unfold bind. by rewrite H. Qed.

Lemma bind_run_raise {St A B} (m : M St A) (k : A -> M St B) (st st' : St)
    (e : exn) :
  m st = (Raise e, st') -> bind m k st = (Raise e, st').
Proof. intros H. unfold bind. by rewrite H. Qed.

Lemma setattr_run (name : string) (a : attr) (self : gmap string attr) :
  setattr name a self = (Return tt, <[name:=a]> self).
Proof. reflexivity. Qed.

Lemma engine_of_run (mro : list (gset string)) (field method : string)
    (self : gmap string attr) (e : GrantEngine) :
  self !! field = Some (Engine e) ->
  engine_of mro field method self = (Return e, self).
Proof.
  intros H. unfold engine_of.
  by rewrite (bind_run _ _ _ _ _ (getattr_field mro field self _ H)).
Qed.

Lemma do_register_response_type_run (mro : list (gset string))
    (field t : string) (self : gmap string attr) (e : GrantEngine) :
  self !! field = Some (Engine e) ->
  do_register_response_type mro field t self
  = (Return tt, <[field:=Engine (register_response_type t e)]> self).
Proof.
  intros H. unfold do_register_response_type.
  by rewrite (bind_run _ _ _ _ _ (engine_of_run mro field _ self e H)).
Qed.

Lemma do_register_authorization_validator_run (mro : list (gset string))
    (field f : string) (self : gmap string attr) (e : GrantEngine) :
  self !! field = Some (Engine e) ->
  self !! f = None ->
  existsb (fun ns => bool_decide (f ∈ ns)) mro = true ->
  do_register_authorization_validator mro field f self
  = (Return tt, <[field:=Engine (register_authorization_validator f e)]> self).
Proof.
  intros H Hf Hm. unfold do_register_authorization_validator.
  rewrite (bind_run _ _ _ _ _ (engine_of_run mro field _ self e H)).
  by rewrite (bind_run _ _ _ _ _ (getattr_method mro f self Hf Hm)).
Qed.

Lemma do_register_authorization_validator_missing (mro : list (gset string))
    (field f : string) (self : gmap string attr) (e : GrantEngine) :
  self !! field = Some (Engine e) ->
  self !! f = None ->
  existsb (fun ns => bool_decide (f ∈ ns)) mro = false ->
  do_register_authorization_validator mro field f self
  = (Raise (AttributeError f), self).
Proof.
  intros H Hf Hm. unfold do_register_authorization_validator.
  rewrite (bind_run _ _ _ _ _ (engine_of_run mro field _ self e H)).
  by rewrite (bind_run_raise _ _ _ _ _ (getattr_missing mro f self Hf Hm)).
Qed.

Lemma do_register_token_modifier_run (mro : list (gset string))
    (field f : string) (self : gmap string attr) (e : GrantEngine) :
  self !! field = Some (Engine e) ->
  self !! f = None ->
  existsb (fun ns => bool_decide (f ∈ ns)) mro = true ->
  do_register_token_modifier mro field f self
  = (Return tt, <[field:=Engine (register_token_modifier f e)]> self).
Proof.
  intros H Hf Hm. unfold do_register_token_modifier.
  rewrite (bind_run _ _ _ _ _ (engine_of_run mro field _ self e H)).
  by rewrite (bind_run _ _ _ _ _ (getattr_method mro f self Hf Hm)).
Qed.

Lemma do_register_token_modifier_missing (mro : list (gset string))
    (field f : string) (self : gmap string attr) (e : GrantEngine) :
  self !! field = Some (Engine e) ->
  self !! f = None ->
  existsb (fun ns => bool_decide (f ∈ ns)) mro = false ->
  do_register_token_modifier mro field f self
  = (Raise (AttributeError f), self).
Proof.
  intros H Hf Hm. unfold do_register_token_modifier.
  rewrite (bind_run _ _ _ _ _ (engine_of_run mro field _ self e H)).
  by rewrite (bind_run_raise _ _ _ _ _ (getattr_missing mro f self Hf Hm)).
Qed.

(** A lookup in a dictionary built by assignments to known names. *)
Ltac solve_lookup :=
  repeat first [ rewrite lookup_insert_eq
               | rewrite lookup_insert_ne by done ];
  rewrite ?lookup_empty; reflexivity.

(** A name a class of this module defines, or does not define. *)
Ltac solve_names :=
  repeat first [ apply bool_decide_eq_true_2 | apply bool_decide_eq_false_2 ];
  set_solver.

Section ComposerProperties.

Variable GrantTypeBase_names : gset string.
Variable RequestValidator_new : RequestValidator.
Variable AuthorizationCodeGrant : option RequestValidator -> GrantEngine.
Variable ImplicitGrant : option RequestValidator -> GrantEngine.

Lemma base_defines_validator (own : gset string) :
  existsb (fun ns => bool_decide ("openid_authorization_validator" ∈ ns))
    [own; OpenIDConnectBase_names; GrantTypeBase_names] = true.
Proof.
  simpl. apply orb_true_iff. right. apply orb_true_iff. left. solve_names.
Qed.

Lemma base_defines_add_id_token (own : gset string) :
  existsb (fun ns => bool_decide ("add_id_token" ∈ ns))
    [own; OpenIDConnectBase_names; GrantTypeBase_names] = true.
Proof.
  simpl. apply orb_true_iff. right. apply orb_true_iff. left. solve_names.
Qed.

Lemma implicit_defines_implicit_validator :
  existsb
    (fun ns => bool_decide ("openid_implicit_authorization_validator" ∈ ns))
    (OpenIDConnectImplicit_mro GrantTypeBase_names) = true.
Proof. simpl. apply orb_true_iff. left. solve_names. Qed.

Lemma implicit_lacks_create_id_token :
  "create_id_token" ∉ GrantTypeBase_names ->
  existsb (fun ns => bool_decide ("create_id_token" ∈ ns))
    (OpenIDConnectImplicit_mro GrantTypeBase_names) = false.
Proof.
  intros Hno. simpl. rewrite !orb_false_iff. split_and!; [| | | done];
    solve_names.
Qed.

Lemma hybrid_lookup_create_id_token :
  "create_id_token" ∉ GrantTypeBase_names ->
  existsb (fun ns => bool_decide ("create_id_token" ∈ ns))
    (OpenIDConnectHybrid_mro GrantTypeBase_names) = false.
Proof.
  intros Hno. simpl. rewrite !orb_false_iff. split_and!; [| | | done];
    solve_names.
Qed.

Lemma hybrid_lookup_implicit_validator :
  existsb
    (fun ns => bool_decide ("openid_implicit_authorization_validator" ∈ ns))
    (OpenIDConnectHybrid_mro GrantTypeBase_names)
  = bool_decide
      ("openid_implicit_authorization_validator" ∈ GrantTypeBase_names).
Proof.
  simpl. rewrite orb_false_r.
  replace (bool_decide ("openid_implicit_authorization_validator"
                        ∈ OpenIDConnectHybrid_names)) with false
    by (symmetry; solve_names).
  replace (bool_decide ("openid_implicit_authorization_validator"
                        ∈ OpenIDConnectBase_names)) with false
    by (symmetry; solve_names).
  done.
Qed.

Lemma implicit_init_fails (request_validator : option RequestValidator) :
  "create_id_token" ∉ GrantTypeBase_names ->
  fst (OpenIDConnectImplicit_init GrantTypeBase_names RequestValidator_new
         ImplicitGrant request_validator ∅)
  = Raise (AttributeError "create_id_token").
Proof.
  intros Hno. unfold OpenIDConnectImplicit_init.
  erewrite bind_run by apply setattr_run.
  erewrite bind_run by apply setattr_run.
  erewrite bind_run
    by (apply do_register_response_type_run; solve_lookup).
  erewrite bind_run
    by (apply do_register_response_type_run; solve_lookup).
  erewrite bind_run
    by (apply do_register_authorization_validator_run;
        [solve_lookup | solve_lookup | apply base_defines_validator]).
  erewrite bind_run
    by (apply do_register_authorization_validator_run;
        [solve_lookup | solve_lookup
        | apply implicit_defines_implicit_validator]).
  erewrite do_register_token_modifier_missing;
    [done | solve_lookup | solve_lookup
    | by apply implicit_lacks_create_id_token].
Qed.

Lemma hybrid_init_fails (request_validator : option RequestValidator) :
  "create_id_token" ∉ GrantTypeBase_names ->
  fst (OpenIDConnectHybrid_init GrantTypeBase_names RequestValidator_new
         AuthorizationCodeGrant ImplicitGrant request_validator ∅)
  = Raise (AttributeError
      (if bool_decide ("openid_implicit_authorization_validator"
                       ∈ GrantTypeBase_names)
       then "create_id_token"
       else "openid_implicit_authorization_validator")).
Proof.
  intros Hno. unfold OpenIDConnectHybrid_init.
  erewrite bind_run by apply setattr_run.
  erewrite bind_run by apply setattr_run.
  do 3 (erewrite bind_run
          by (apply do_register_response_type_run; solve_lookup)).
  erewrite bind_run
    by (apply do_register_authorization_validator_run;
        [solve_lookup | solve_lookup | apply base_defines_validator]).
  erewrite bind_run
    by (apply do_register_token_modifier_run;
        [solve_lookup | solve_lookup | apply base_defines_add_id_token]).
  erewrite bind_run by apply setattr_run.
  do 2 (erewrite bind_run
          by (apply do_register_response_type_run; solve_lookup)).
  erewrite bind_run
    by (apply do_register_authorization_validator_run;
        [solve_lookup | solve_lookup | apply base_defines_validator]).
  pose proof hybrid_lookup_implicit_validator as Hlook.
  destruct (bool_decide ("openid_implicit_authorization_validator"
                         ∈ GrantTypeBase_names)).
  - erewrite bind_run
      by (apply do_register_authorization_validator_run;
          [solve_lookup | solve_lookup | apply Hlook]).
    erewrite do_register_token_modifier_missing;
      [done | solve_lookup | solve_lookup
      | by apply hybrid_lookup_create_id_token].
  - by erewrite bind_run_raise
      by (eapply do_register_authorization_validator_missing;
          [solve_lookup | solve_lookup | apply Hlook]).
Qed.

(** C10. Neither [OpenIDConnectBase] nor the two classes define
    [create_id_token]; when the base class [GrantTypeBase] gives no
    attribute of that name either, the constructors of
    [OpenIDConnectImplicit] and [OpenIDConnectHybrid] raise
    [AttributeError] for every [request_validator], so neither returns
    an object.  [OpenIDConnectImplicit] fails on [create_id_token];
    [OpenIDConnectHybrid] fails on it too, unless it has failed one
    statement earlier on [openid_implicit_authorization_validator],
    which only [OpenIDConnectImplicit] defines. *)
Theorem implicit_and_hybrid_construction_fails
    (request_validator : option RequestValidator) :
  "create_id_token" ∉ GrantTypeBase_names ->
  OpenIDConnectImplicit GrantTypeBase_names RequestValidator_new
    ImplicitGrant request_validator
  = Raise (AttributeError "create_id_token")
  /\ OpenIDConnectHybrid GrantTypeBase_names RequestValidator_new
       AuthorizationCodeGrant ImplicitGrant request_validator
     = Raise (AttributeError
         (if bool_decide ("openid_implicit_authorization_validator"
                          ∈ GrantTypeBase_names)
          then "create_id_token"
          else "openid_implicit_authorization_validator"))
  /\ (forall self,
        OpenIDConnectImplicit GrantTypeBase_names RequestValidator_new
          ImplicitGrant request_validator <> Return self
        /\ OpenIDConnectHybrid GrantTypeBase_names RequestValidator_new
             AuthorizationCodeGrant ImplicitGrant request_validator
           <> Return self).
Proof.
  intros Hno.
  pose proof (implicit_init_fails request_validator Hno) as Hi.
  pose proof (hybrid_init_fails request_validator Hno) as Hh.
  unfold OpenIDConnectImplicit, OpenIDConnectHybrid, construct.
  destruct (OpenIDConnectImplicit_init _ _ _ _ ∅) as [oi si].
  destruct (OpenIDConnectHybrid_init _ _ _ _ _ ∅) as [oh sh].
  simpl in Hi, Hh. subst oi oh. by split_and!.
Qed.

(** The constructor of [OpenIDConnectAuthCode] uses names that are
    defined, and returns the object with its engine wired. *)
Lemma auth_code_construction (request_validator : option RequestValidator) :
  OpenIDConnectAuthCode GrantTypeBase_names RequestValidator_new
    AuthorizationCodeGrant request_validator
  = Return
      (<["auth_code" :=
           Engine (register_token_modifier "add_id_token"
                     (register_authorization_validator
                        "openid_authorization_validator"
                        (AuthorizationCodeGrant request_validator)))]>
         (<["request_validator" :=
              Validator (or_default RequestValidator_new request_validator)]>
            ∅)).
Proof.
  unfold OpenIDConnectAuthCode, construct, OpenIDConnectAuthCode_init.
  erewrite bind_run by apply setattr_run.
  erewrite bind_run by apply setattr_run.
  erewrite bind_run
    by (apply do_register_authorization_validator_run;
        [solve_lookup | solve_lookup | apply base_defines_validator]).
  erewrite do_register_token_modifier_run;
    [| solve_lookup | solve_lookup | apply base_defines_add_id_token].
  by rewrite !insert_insert_eq.
Qed.

End ComposerProperties.

(** * The properties at sample requests *)

Lemma silent_login_before_consent_witness :
  fst (validate json_loads (answering false true true) silent_request)
  = Raise (LoginRequired None)
  /\ calls (snd (validate json_loads (answering false true true)
                   silent_request))
     = [SilentLogin silent_request]
  /\ forall c,
       c ∈ calls (snd (validate json_loads (answering false true true)
                         silent_request)) ->
       is_silent_authorization c = false.
Proof.
  apply (silent_login_before_consent json_loads (answering false true true)
           silent_request "previous-id-token").
  - apply list_elem_of_here.
  - reflexivity.
  - reflexivity.
  - discriminate.
  - reflexivity.
Defined.

Lemma prompt_none_requires_hint_witness :
  validate json_loads unimplemented hintless_request
  = (Raise (InvalidRequestError (Some msg_missing_hint)),
     {| request := hintless_request; calls := [] |}).
Proof.
  apply (prompt_none_requires_hint json_loads unimplemented hintless_request).
  - apply list_elem_of_here.
  - reflexivity.
  - right. reflexivity.
Defined.

Lemma silent_authorization_refused_witness :
  validate json_loads (answering true false true) silent_request
  = (Raise (ConsentRequired None),
     {| request := silent_request;
        calls := [SilentLogin silent_request;
                  SilentAuthorization silent_request] |}).
Proof.
  apply (silent_authorization_refused json_loads (answering true false true)
           silent_request "previous-id-token").
  - apply list_elem_of_here.
  - reflexivity.
  - reflexivity.
  - discriminate.
  - reflexivity.
  - reflexivity.
Defined.

Lemma no_openid_is_noop_witness :
  validate json_loads unimplemented plain_request
  = (Return None, {| request := plain_request; calls := [] |})
  /\ add_id_token sample_token plain_request = Some sample_token.
Proof.
  apply (no_openid_is_noop json_loads unimplemented plain_request sample_token).
  intros Hin. apply list_elem_of_singleton in Hin. discriminate Hin.
Defined.

(** C5. On a request with [openid] in its scopes [add_id_token] returns
    no token. *)
Theorem add_id_token_returns_nothing :
  add_id_token sample_token silent_request = None.
Proof. reflexivity. Qed.

(** C6. A request without [openid] passes the validator with its claims
    still the text it came with; a request with [openid] whose claims are
    the text of a JSON array passes with a list for its claims. *)
Lemma claims_stay_text_without_openid :
  (fst (validate json_loads (answering true true true) plain_request)
   = Return None
   /\ claims (request (snd (validate json_loads (answering true true true)
                              plain_request)))
      = PyStr "{}"
   /\ is_mapping
        (claims (request (snd (validate json_loads (answering true true true)
                                 plain_request))))
      = false)
  /\ (fst (validate json_loads (answering true true true)
             array_claims_request)
      = Return (Some (request_info_of array_claims_request))
      /\ claims (request (snd (validate json_loads (answering true true true)
                                 array_claims_request)))
         = PyList [PyInt 1]
      /\ is_mapping
           (claims (request (snd (validate json_loads
                                    (answering true true true)
                                    array_claims_request))))
         = false).
Proof. by split_and!. Qed.

Lemma claims_parsed_or_failure_propagates_witness :
  snd (validate json_loads (answering true true true) interactive_request)
  = {| request := set_claims (PyDict []) interactive_request;
       calls := [UserMatch None ["openid"] (PyDict [])
                   (set_claims (PyDict []) interactive_request)] |}
  /\ validate json_loads (answering true true true) malformed_request
     = (Raise ValueError, {| request := malformed_request; calls := [] |}).
Proof.
  assert (Hp1 : passes_prompt_checks (answering true true true)
                  interactive_request) by (left; discriminate).
  assert (Hp2 : passes_prompt_checks (answering true true true)
                  malformed_request) by (left; discriminate).
  split.
  - apply (proj1 (claims_parsed_or_failure_propagates json_loads
                    (answering true true true) interactive_request
                    (list_elem_of_here _ _) Hp1)).
    right. reflexivity.
  - apply (proj2 (claims_parsed_or_failure_propagates json_loads
                    (answering true true true) malformed_request
                    (list_elem_of_here _ _) Hp2) "{").
    + reflexivity.
    + discriminate.
    + reflexivity.
Defined.

Lemma user_mismatch_is_login_required_witness :
  validate json_loads (answering true true false) claims_request
  = (Raise (LoginRequired (Some msg_user_mismatch)),
     {| request :=
          set_claims (PyDict [("id_token", PyDict [("auth_time", PyNone)])])
            claims_request;
        calls :=
          [UserMatch None ["openid"]
             (PyDict [("id_token", PyDict [("auth_time", PyNone)])])
             (set_claims
                (PyDict [("id_token", PyDict [("auth_time", PyNone)])])
                claims_request)] |})
  /\ LoginRequired (Some msg_user_mismatch) <> LoginRequired None
  /\ lower msg_user_mismatch
     = "session user does not match client supplied user" +:+ ".".
Proof.
  apply (user_mismatch_is_login_required json_loads
           (answering true true false) claims_request
           (PyDict [("id_token", PyDict [("auth_time", PyNone)])])).
  - apply list_elem_of_here.
  - left. discriminate.
  - reflexivity.
  - reflexivity.
Defined.

(** C9. With [prompt] equal to ['none'] and an empty hint, a request with
    [openid] in its scopes gets no [request_info], although every method
    of the request validator answers true. *)
Lemma no_request_info_without_hint :
  "openid" ∈ scopes hintless_request
  /\ (forall r, validate_silent_login (answering true true true) r
                = Return true)
  /\ (forall r, validate_silent_authorization (answering true true true) r
                = Return true)
  /\ (forall h scs cl r,
        validate_user_match (answering true true true) h scs cl r
        = Return true)
  /\ fst (validate json_loads (answering true true true) hintless_request)
     = Raise (InvalidRequestError (Some msg_missing_hint))
  /\ forall info,
       fst (validate json_loads (answering true true true) hintless_request)
       <> Return (Some info).
Proof. split_and!; try done. apply list_elem_of_here. Qed.

Lemma request_info_returned_witness :
  fst (validate json_loads (answering true true true) interactive_request)
  = Return (Some
      {| ri_display := None;
         ri_prompt := ["login"; "consent"];
         ri_ui_locales := ["fr-CA"; "fr"; "en"];
         ri_id_token_hint := None;
         ri_login_hint := None |})
  /\ claims (request (snd (validate json_loads (answering true true true)
                             interactive_request)))
     = PyDict [].
Proof.
  apply (request_info_returned json_loads (answering true true true)
           interactive_request (PyDict [])).
  - apply list_elem_of_here.
  - discriminate.
  - discriminate.
  - reflexivity.
  - reflexivity.
Defined.

Lemma claims_after_validation_witness :
  decode_claims json_loads (claims claims_request)
  = Return (PyDict [("id_token", PyDict [("auth_time", PyNone)])])
  /\ is_mapping (PyDict [("id_token", PyDict [("auth_time", PyNone)])]) = true.
Proof.
  pose proof (claims_after_validation json_loads (answering true true true)
                claims_request _ _ eq_refl) as [_ H].
  destruct (H (list_elem_of_here _ _)) as (Hdec & _ & _ & Hmap). split.
  - exact Hdec.
  - apply (Hmap claims_text [("id_token", PyDict [("auth_time", PyNone)])]).
    + reflexivity.
    + discriminate.
    + reflexivity.
Defined.

Lemma implicit_and_hybrid_construction_fails_witness :
  OpenIDConnectImplicit sample_base_names unimplemented
    (fresh_engine ["token"]) None
  = Raise (AttributeError "create_id_token")
  /\ OpenIDConnectHybrid sample_base_names unimplemented
       (fresh_engine ["code"]) (fresh_engine ["token"]) None
     = Raise (AttributeError "openid_implicit_authorization_validator").
Proof.
  destruct (implicit_and_hybrid_construction_fails sample_base_names
              unimplemented (fresh_engine ["code"]) (fresh_engine ["token"])
              None) as (Hi & Hh & _).
  - intros Hin. vm_compute in Hin. discriminate Hin.
  - split; [exact Hi | exact Hh].
Defined.

(** * Further properties of the authorization validator *)

(** Splits a run of the validator into its cases. *)
Ltac split_run :=
  unfold validate_cases, finish_run;
  repeat match goal with
         | |- context [match ?x with _ => _ end] => destruct x eqn:?
         end;
  simpl.

Section FurtherValidatorProperties.

Variable loads : string -> option pyval.
Variable rv : RequestValidator.

Lemma validate_unfold (r : Request) :
  validate loads rv r = validate_cases loads rv r.
Proof.
  unfold validate_cases, finish_run, decode_claims. run_validator.
  destruct (has_openid r); simpl; [| done].
  destruct (prompt_is_none r); simpl.
  - destruct (truthy_str (id_token_hint r)); simpl; [| done].
    destruct (validate_silent_login rv r) as [[|]|]; simpl; try done.
    destruct (validate_silent_authorization rv r) as [[|]|]; simpl; try done.
    destruct (truthy (claims r)); simpl.
    + destruct (claims r) as [| | | | s | |]; simpl; try done.
      destruct (loads s) as [v|]; simpl; [| done].
      by destruct (validate_user_match rv _ _ v _) as [[|]|].
    + by destruct (validate_user_match rv _ _ _ _) as [[|]|].
  - destruct (truthy (claims r)); simpl.
    + destruct (claims r) as [| | | | s | |]; simpl; try done.
      destruct (loads s) as [v|]; simpl; [| done].
      by destruct (validate_user_match rv _ _ v _) as [[|]|].
    + by destruct (validate_user_match rv _ _ _ _) as [[|]|].
Qed.

Lemma has_openid_spec (r : Request) :
  has_openid r = true <-> "openid" ∈ scopes r.
Proof. unfold has_openid. by rewrite bool_decide_eq_true. Qed.

Lemma prompt_is_none_spec (r : Request) :
  prompt_is_none r = true <-> prompt r = Some "none".
Proof. unfold prompt_is_none. by rewrite bool_decide_eq_true. Qed.

(** X1. The validator returns [None] for the requests without [openid]
    in their scopes and for no other: with [openid] it returns a
    [request_info] or raises. *)
Theorem none_iff_no_openid (r : Request) :
  fst (validate loads rv r) = Return None <-> "openid" ∉ scopes r.
Proof.
  rewrite validate_unfold, <- has_openid_spec. split.
  - split_run; intros; congruence.
  - intros Hno. unfold validate_cases.
    by destruct (has_openid r).
Qed.

Lemma passes_prompt_checks_cases (r : Request) :
  passes_prompt_checks rv r <->
  (prompt_is_none r = false
   \/ (prompt_is_none r = true
       /\ truthy_str (id_token_hint r) = true
       /\ validate_silent_login rv r = Return true
       /\ validate_silent_authorization rv r = Return true)).
Proof.
  unfold passes_prompt_checks. rewrite <- prompt_is_none_spec.
  destruct (prompt_is_none r); naive_solver.
Qed.

Lemma prompt_calls_none (r : Request) :
  prompt_is_none r = true ->
  prompt_calls r = [SilentLogin r; SilentAuthorization r].
Proof. intros H. unfold prompt_calls. by rewrite H. Qed.

Lemma prompt_calls_other (r : Request) :
  prompt_is_none r = false -> prompt_calls r = [].
Proof. intros H. unfold prompt_calls. by rewrite H. Qed.

(** The run of a request that passes the [prompt == 'none'] block. *)
Lemma validate_cases_passes (r : Request) :
  has_openid r = true ->
  passes_prompt_checks rv r ->
  validate_cases loads rv r = finish_run loads rv r (prompt_calls r).
Proof.
  intros Hin Hpass. apply passes_prompt_checks_cases in Hpass.
  unfold validate_cases. rewrite Hin.
  destruct Hpass as [Hp | (Hp & Ht & Hl & Ha)].
  - by rewrite Hp, (prompt_calls_other r Hp).
  - by rewrite Hp, Ht, Hl, Ha, (prompt_calls_none r Hp).
Qed.

(** What a returned [request_info] tells about the run. *)
Lemma returned_info_inv (r : Request) (info : RequestInfo) :
  fst (validate loads rv r) = Return (Some info) ->
  has_openid r = true
  /\ passes_prompt_checks rv r
  /\ (exists v,
        decode_claims loads (claims r) = Return v
        /\ validate_user_match rv (id_token_hint r) (scopes r) v
             (set_claims v r) = Return true)
  /\ info = request_info_of r.
Proof.
  rewrite validate_unfold, passes_prompt_checks_cases.
  split_run; intros H; try discriminate H;
    injection H as <-; split_and!; try done;
    first [ by left | by right | by eexists ].
Qed.

(** X2. The validator returns a [request_info] exactly when the request
    has [openid], passes the [prompt == 'none'] block, has claims that
    decode, and the user match answers true; the [request_info] is then
    the one built from the request. *)
Theorem request_info_iff (r : Request) (info : RequestInfo) :
  fst (validate loads rv r) = Return (Some info)
  <-> ("openid" ∈ scopes r
       /\ passes_prompt_checks rv r
       /\ (exists v,
             decode_claims loads (claims r) = Return v
             /\ validate_user_match rv (id_token_hint r) (scopes r) v
                  (set_claims v r) = Return true)
       /\ info = request_info_of r).
Proof.
  rewrite <- has_openid_spec. split; [apply returned_info_inv |].
  intros (Hin & Hpass & (v & Hdec & Hmatch) & ->).
  rewrite validate_unfold, (validate_cases_passes r Hin Hpass).
  unfold finish_run. by rewrite Hdec, Hmatch.
Qed.

(** X3. The silent authorization check is asked only about the request
    itself, right after a silent login check that answered true, and only
    when [prompt] is ['none'] and the hint is there. *)
Theorem silent_authorization_only_after_login (r r' : Request) :
  SilentAuthorization r' ∈ calls (snd (validate loads rv r)) ->
  r' = r
  /\ "openid" ∈ scopes r
  /\ prompt r = Some "none"
  /\ truthy_str (id_token_hint r) = true
  /\ validate_silent_login rv r = Return true
  /\ exists rest,
       calls (snd (validate loads rv r))
       = SilentLogin r :: SilentAuthorization r :: rest.
Proof.
  rewrite validate_unfold, <- has_openid_spec, <- prompt_is_none_spec.
  split_run; intros H;
    repeat (apply elem_of_cons in H as [H|H]; [try discriminate H |]);
    try (by apply elem_of_nil in H);
    try (injection H as ->; split_and!; eauto).
Qed.

(** X4. The user match is asked at most once and as the last call of a
    run, only on a request that passed the [prompt == 'none'] block and
    whose claims decoded; it is asked about the hint, the scopes, the
    decoded claims and the request that holds them. *)
Theorem user_match_asked_last (r r' : Request) (h : option string)
    (scs : list string) (cl : pyval) :
  UserMatch h scs cl r' ∈ calls (snd (validate loads rv r)) ->
  "openid" ∈ scopes r
  /\ passes_prompt_checks rv r
  /\ decode_claims loads (claims r) = Return cl
  /\ h = id_token_hint r /\ scs = scopes r /\ r' = set_claims cl r
  /\ calls (snd (validate loads rv r))
     = prompt_calls r ++ [UserMatch h scs cl r'].
Proof.
  rewrite validate_unfold, <- has_openid_spec, passes_prompt_checks_cases.
  unfold prompt_calls.
  split_run; intros H;
    repeat (apply elem_of_cons in H as [H|H]; [try discriminate H |]);
    try (by apply elem_of_nil in H);
    try (injection H as -> -> -> ->; split_and!; try done;
         first [ by left | by right ]).
Qed.

Lemma run_keeps_fields (r : Request) :
  let r' := request (snd (validate loads rv r)) in
  scopes r' = scopes r /\ prompt r' = prompt r /\ display r' = display r
  /\ max_age r' = max_age r /\ ui_locales r' = ui_locales r
  /\ id_token_hint r' = id_token_hint r /\ login_hint r' = login_hint r
  /\ acr_values r' = acr_values r /\ response_type r' = response_type r
  /\ (r' = r \/ decode_claims loads (claims r) = Return (claims r')).
Proof.
  rewrite validate_unfold. split_run; split_and!; auto.
Qed.

(** X5. Whatever the outcome of a run, the only field of the request the
    validator writes is [claims], and what it writes there is the decoded
    claims. *)
Theorem only_claims_are_written (r : Request) :
  let r' := request (snd (validate loads rv r)) in
  scopes r' = scopes r /\ prompt r' = prompt r /\ display r' = display r
  /\ max_age r' = max_age r /\ ui_locales r' = ui_locales r
  /\ id_token_hint r' = id_token_hint r /\ login_hint r' = login_hint r
  /\ acr_values r' = acr_values r /\ response_type r' = response_type r
  /\ (r' = r \/ decode_claims loads (claims r) = Return (claims r')).
Proof. exact (run_keeps_fields r). Qed.

(** X6. An exception raised by a method of the request validator ends the
    run as that exception: no later method is called, and only a failing
    user match finds the claims already replaced by their decoded
    form. *)
Theorem validator_exception_propagates (r : Request) (e : exn) :
  "openid" ∈ scopes r ->
  (prompt r = Some "none" -> truthy_str (id_token_hint r) = true ->
   validate_silent_login rv r = Raise e ->
   validate loads rv r
   = (Raise e, {| request := r; calls := [SilentLogin r] |}))
  /\ (prompt r = Some "none" -> truthy_str (id_token_hint r) = true ->
      validate_silent_login rv r = Return true ->
      validate_silent_authorization rv r = Raise e ->
      validate loads rv r
      = (Raise e,
         {| request := r;
            calls := [SilentLogin r; SilentAuthorization r] |}))
  /\ (forall v,
        passes_prompt_checks rv r ->
        decode_claims loads (claims r) = Return v ->
        validate_user_match rv (id_token_hint r) (scopes r) v (set_claims v r)
        = Raise e ->
        validate loads rv r
        = (Raise e,
           {| request := set_claims v r;
              calls := prompt_calls r
                       ++ [UserMatch (id_token_hint r) (scopes r) v
                             (set_claims v r)] |})).
Proof.
  intros Hin. apply has_openid_spec in Hin. rewrite validate_unfold.
  split_and!.
  - intros Hp Ht Hl. apply prompt_is_none_spec in Hp.
    unfold validate_cases. by rewrite Hin, Hp, Ht, Hl.
  - intros Hp Ht Hl Ha. apply prompt_is_none_spec in Hp.
    unfold validate_cases. by rewrite Hin, Hp, Ht, Hl, Ha.
  - intros v Hpass Hdec Hm. rewrite (validate_cases_passes r Hin Hpass).
    unfold finish_run. by rewrite Hdec, Hm.
Qed.

(** X7. A request whose claims are already decoded to something that is
    neither empty nor text, as a first run of the validator leaves them,
    cannot be validated again: the second decoding raises [TypeError]
    before the user match is asked. *)
Theorem revalidation_raises_type_error (r : Request)
    (info : RequestInfo) (st : pstate) :
  validate loads rv r = (Return (Some info), st) ->
  truthy (claims (request st)) = true ->
  (forall s, claims (request st) <> PyStr s) ->
  passes_prompt_checks rv (request st) ->
  validate loads rv (request st)
  = (Raise TypeError,
     {| request := request st; calls := prompt_calls (request st) |}).
Proof.
  intros Hrun Ht Hns Hpass.
  assert (Hin : has_openid (request st) = true).
  { pose proof (run_keeps_fields r) as (Hsc & _). rewrite Hrun in Hsc.
    simpl in Hsc. unfold has_openid. rewrite Hsc.
    apply (returned_info_inv r info). by rewrite Hrun. }
  rewrite validate_unfold, (validate_cases_passes _ Hin Hpass).
  unfold finish_run, decode_claims. rewrite Ht.
  destruct (claims (request st)) as [| | | | s | |]; try done.
  by destruct (Hns s).
Qed.

(** X8. A request whose claims a first run left as the empty dictionary
    can be validated again: when the request validator gives the same
    answers, the second run returns the same [request_info] and leaves
    the request as it is. *)
Theorem revalidation_with_empty_claims (r : Request)
    (info : RequestInfo) (st : pstate) :
  validate loads rv r = (Return (Some info), st) ->
  claims (request st) = PyDict [] ->
  passes_prompt_checks rv (request st) ->
  validate_user_match rv (id_token_hint r) (scopes r) (PyDict [])
    (request st) = Return true ->
  validate loads rv (request st)
  = (Return (Some info),
     {| request := request st;
        calls := prompt_calls (request st)
                 ++ [UserMatch (id_token_hint r) (scopes r) (PyDict [])
                       (request st)] |}).
Proof.
  intros Hrun Hc Hpass Hm.
  pose proof (run_keeps_fields r) as Hsame. rewrite Hrun in Hsame.
  simpl in Hsame.
  destruct Hsame as (Hsc & Hpr & Hd & Hma & Hu & Hh & Hl & Ha & Hrt & _).
  assert (Hinfo : info = request_info_of r).
  { apply (returned_info_inv r info). by rewrite Hrun. }
  assert (Hin : has_openid (request st) = true).
  { unfold has_openid. rewrite Hsc.
    apply (returned_info_inv r info). by rewrite Hrun. }
  assert (Hset : set_claims (PyDict []) (request st) = request st).
  { destruct (request st). simpl in Hc. by subst. }
  rewrite validate_unfold, (validate_cases_passes _ Hin Hpass).
  unfold finish_run, decode_claims. rewrite Hc. simpl.
  rewrite Hset, Hh, Hsc, Hm, Hinfo.
  unfold request_info_of. by rewrite Hd, Hpr, Hu, Hh, Hl.
Qed.

(** ** The words of [prompt] and [ui_locales] *)

Lemma split_from_blank (s cur : string) :
  is_blank s = true ->
  split_from cur s = match cur with EmptyString => [] | _ => [cur] end.
Proof.
  unfold is_blank. revert cur. induction s as [|c s IH]; intros cur Hs.
  - done.
  - simpl in Hs. apply andb_prop in Hs as [Hc Hs]. simpl. rewrite Hc.
    rewrite (IH "" Hs). by destruct cur.
Qed.

Lemma filter_words_empty (s : string) :
  string_filter (fun c => negb (isspace c)) s = "" -> is_blank s = true.
Proof.
  unfold is_blank. induction s as [|c s IH]; [done |]. simpl.
  destruct (isspace c); simpl; [done | discriminate].
Qed.

Lemma split_empty_iff (o : option string) :
  split_or_empty o = []
  <-> o = None \/ exists s, o = Some s /\ is_blank s = true.
Proof.
  rewrite split_or_empty_spec. destruct o as [s|]; [| naive_solver]. split.
  - intros He. right. exists s. split; [done |].
    apply filter_words_empty. by rewrite <- split_concat, He.
  - intros [[=] | (s' & [= <-] & Hb)]. unfold split.
    by rewrite split_from_blank.
Qed.

(** X9. In a [request_info] the validator returns, every entry of
    [prompt] and of [ui_locales] is a word, not empty and free of
    whitespace, and the entries in their order spell the request's field
    with its whitespace taken out. *)
Theorem request_info_holds_words (r : Request) (info : RequestInfo) :
  fst (validate loads rv r) = Return (Some info) ->
  Forall (fun w => is_word w = true) (ri_prompt info)
  /\ Forall (fun w => is_word w = true) (ri_ui_locales info)
  /\ string_concat (ri_prompt info)
     = string_filter (fun c => negb (isspace c)) (default "" (prompt r))
  /\ string_concat (ri_ui_locales info)
     = string_filter (fun c => negb (isspace c)) (default "" (ui_locales r)).
Proof.
  intros Hrun. apply returned_info_inv in Hrun as (_ & _ & _ & ->).
  unfold request_info_of. simpl. rewrite !split_or_empty_spec.
  destruct (prompt r) as [p|], (ui_locales r) as [l|]; simpl;
    split_and!; auto using split_words, split_concat.
Qed.

(** X10. Words sent joined by single spaces come back as the same words
    in the same order, in [prompt] and in [ui_locales]. *)
Theorem request_info_round_trip (r : Request) (info : RequestInfo) :
  fst (validate loads rv r) = Return (Some info) ->
  (forall ws, Forall (fun w => is_word w = true) ws ->
     prompt r = Some (join_space ws) -> ri_prompt info = ws)
  /\ (forall ws, Forall (fun w => is_word w = true) ws ->
        ui_locales r = Some (join_space ws) -> ri_ui_locales info = ws).
Proof.
  intros Hrun. apply returned_info_inv in Hrun as (_ & _ & _ & ->).
  unfold request_info_of. simpl. rewrite !split_or_empty_spec.
  split; intros ws Hws ->; by apply split_join_space.
Qed.

(** X11. The list a [request_info] gives for [prompt], and likewise for
    [ui_locales], is empty exactly when the field is absent or holds
    nothing but whitespace. *)
Theorem request_info_empty_lists (r : Request) (info : RequestInfo) :
  fst (validate loads rv r) = Return (Some info) ->
  (ri_prompt info = []
   <-> prompt r = None \/ exists s, prompt r = Some s /\ is_blank s = true)
  /\ (ri_ui_locales info = []
      <-> ui_locales r = None
          \/ exists s, ui_locales r = Some s /\ is_blank s = true).
Proof.
  intros Hrun. apply returned_info_inv in Hrun as (_ & _ & _ & ->).
  unfold request_info_of. simpl. split; apply split_empty_iff.
Qed.

(** X12. Only the exact text ['none'] makes a silent request.  With any
    other [prompt], one that lists [none] among other values included,
    neither silent check is asked and no hint is needed: the run goes
    straight to the claims and the user match. *)
Theorem other_prompts_skip_silent_checks (r : Request) :
  "openid" ∈ scopes r ->
  prompt r <> Some "none" ->
  validate loads rv r = finish_run loads rv r []
  /\ (forall c, c ∈ calls (snd (validate loads rv r)) ->
        exists v, c = UserMatch (id_token_hint r) (scopes r) v (set_claims v r))
  /\ (forall v,
        decode_claims loads (claims r) = Return v ->
        validate_user_match rv (id_token_hint r) (scopes r) v (set_claims v r)
        = Return true ->
        fst (validate loads rv r) = Return (Some (request_info_of r))).
Proof.
  intros Hin Hp. apply has_openid_spec in Hin.
  assert (Hp' : prompt_is_none r = false).
  { destruct (prompt_is_none r) eqn:E; [| done].
    by apply prompt_is_none_spec in E. }
  assert (Hrun : validate loads rv r = finish_run loads rv r []).
  { rewrite validate_unfold. unfold validate_cases. by rewrite Hin, Hp'. }
  rewrite Hrun. split_and!; [done | |].
  - split_run; intros c Hc;
      repeat (apply elem_of_cons in Hc as [Hc|Hc]; [eauto |]);
      by apply elem_of_nil in Hc.
  - intros v Hdec Hm. unfold finish_run. by rewrite Hdec, Hm.
Qed.

(** ** What an exception tells about its cause *)

(** Closes the cases in which a method of an answering validator would
    have raised. *)
Ltac no_validator_raise Hans :=
  destruct Hans as (Hl & Ha & Hm);
  repeat match goal with
         | H : validate_silent_login ?v ?r = Raise _ |- _ =>
             destruct (Hl r) as [? ?]; congruence
         | H : validate_silent_authorization ?v ?r = Raise _ |- _ =>
             destruct (Ha r) as [? ?]; congruence
         | H : validate_user_match ?v ?h ?s ?c ?r = Raise _ |- _ =>
             destruct (Hm h s c r) as [? ?]; congruence
         end.

(** X16. With a request validator that always answers, the exception of
    a run tells its cause.  [InvalidRequestError] means [prompt] is
    ['none'] and the hint is missing.  [ConsentRequired] means the silent
    login check answered true and the silent authorization check false.
    [LoginRequired] without a description means the silent login check
    answered false; [LoginRequired] with a description means the request
    passed the [prompt == 'none'] block and the user match answered
    false. *)
Theorem exception_tells_cause (r : Request) (d : option string) :
  answers_only rv ->
  (fst (validate loads rv r) = Raise (InvalidRequestError d)
   <-> "openid" ∈ scopes r /\ prompt r = Some "none"
       /\ truthy_str (id_token_hint r) = false
       /\ d = Some msg_missing_hint)
  /\ (fst (validate loads rv r) = Raise (ConsentRequired d)
      <-> "openid" ∈ scopes r /\ prompt r = Some "none"
          /\ truthy_str (id_token_hint r) = true
          /\ validate_silent_login rv r = Return true
          /\ validate_silent_authorization rv r = Return false
          /\ d = None)
  /\ (fst (validate loads rv r) = Raise (LoginRequired d)
      <-> ("openid" ∈ scopes r /\ prompt r = Some "none"
           /\ truthy_str (id_token_hint r) = true
           /\ validate_silent_login rv r = Return false
           /\ d = None)
          \/ ("openid" ∈ scopes r /\ passes_prompt_checks rv r
              /\ (exists v,
                    decode_claims loads (claims r) = Return v
                    /\ validate_user_match rv (id_token_hint r) (scopes r) v
                         (set_claims v r) = Return false)
              /\ d = Some msg_user_mismatch)).
Proof.
  intros Hans.
  rewrite validate_unfold, passes_prompt_checks_cases,
    <- !has_openid_spec, <- !prompt_is_none_spec.
  assert (Hdec : forall e, decode_claims loads (claims r) = Raise e ->
                           e = ValueError \/ e = TypeError).
  { intros e. unfold decode_claims.
    repeat match goal with
           | |- context [match ?x with _ => _ end] => destruct x
           end; intros [=]; auto. }
  split_run; try solve [exfalso; no_validator_raise Hans];
    repeat match goal with
           | H : decode_claims _ _ = Raise _ |- _ =>
               apply Hdec in H as [-> | ->]
           end;
    split_and!; (split; [intros [=]; subst | ]); try naive_solver;
    (intros [? | (_ & _ & (v & Hv & Hf) & _)];
     [naive_solver | injection Hv as <-; congruence]).
Qed.

Lemma decode_claims_value_error (v : pyval) :
  decode_claims loads v = Raise ValueError
  <-> exists s, v = PyStr s /\ s <> "" /\ loads s = None.
Proof.
  unfold decode_claims. destruct v as [| | | | s | |]; simpl;
    try (split; [by repeat case_match | by intros (? & [=] & _)]).
  destruct (String.eqb_spec s "") as [->|Hne]; simpl.
  - split; [done | by intros (s' & [= <-] & ? & _)].
  - destruct (loads s) as [v'|] eqn:El.
    + split; [done |]. intros (s' & [= <-] & _ & Hl). congruence.
    + split; [| done]. intros _. by exists s.
Qed.

Lemma decode_claims_type_error (v : pyval) :
  decode_claims loads v = Raise TypeError
  <-> truthy v = true /\ forall s, v <> PyStr s.
Proof.
  unfold decode_claims.
  destruct v as [| b | n | m e | s | l | d]; simpl;
    repeat case_match; split;
    first [ done
          | by intros [[=] _]
          | by intros _
          | intros [_ Hns]; by destruct (Hns s) ].
Qed.

(** X17. With a request validator that always answers, a run ends in
    [ValueError] exactly when the request has [openid], passes the
    [prompt == 'none'] block and has for claims a text that is not empty
    and that [json.loads] rejects; it ends in [TypeError] exactly when
    such a request has claims that are neither false nor text. *)
Theorem decoding_errors (r : Request) :
  answers_only rv ->
  (fst (validate loads rv r) = Raise ValueError
   <-> "openid" ∈ scopes r /\ passes_prompt_checks rv r
       /\ exists s, claims r = PyStr s /\ s <> "" /\ loads s = None)
  /\ (fst (validate loads rv r) = Raise TypeError
      <-> "openid" ∈ scopes r /\ passes_prompt_checks rv r
          /\ truthy (claims r) = true /\ forall s, claims r <> PyStr s).
Proof.
  intros Hans.
  rewrite <- decode_claims_value_error, <- decode_claims_type_error.
  rewrite validate_unfold, passes_prompt_checks_cases,
    <- !has_openid_spec.
  split_run; try solve [exfalso; no_validator_raise Hans];
    split_and!; (split; [intros [=]; subst | ]); naive_solver.
Qed.

End FurtherValidatorProperties.

(** * Further properties of the flow classes *)

(** A name a class of this module does not define. *)
Ltac solve_names_not := set_solver.

Section FurtherComposerProperties.

Variable GrantTypeBase_names : gset string.
Variable RequestValidator_new : RequestValidator.
Variable AuthorizationCodeGrant : option RequestValidator -> GrantEngine.
Variable ImplicitGrant : option RequestValidator -> GrantEngine.

(** A name the base class gives is found, whatever the class looked in. *)
Lemma base_name_found (own : gset string) (name : string) :
  name ∈ GrantTypeBase_names ->
  existsb (fun ns => bool_decide (name ∈ ns))
    [own; OpenIDConnectBase_names; GrantTypeBase_names] = true.
Proof.
  intros Hin. simpl. rewrite (bool_decide_eq_true_2 _ Hin).
  by rewrite !orb_true_r.
Qed.

(** X13. [OpenIDConnectAuthCode] can be built with every argument.  The
    object holds the request validator, or the default one when none was
    given, and one engine, built with the argument as it was given; the
    engine has [openid_authorization_validator] added to its
    authorization validators and [add_id_token] to its token modifiers,
    and its response types are untouched. *)
Theorem auth_code_wiring (request_validator : option RequestValidator) :
  exists self e,
    OpenIDConnectAuthCode GrantTypeBase_names RequestValidator_new
      AuthorizationCodeGrant request_validator = Return self
    /\ self !! "request_validator"
       = Some (Validator
                 (match request_validator with
                  | Some v => v
                  | None => RequestValidator_new
                  end))
    /\ self !! "auth_code" = Some (Engine e)
    /\ self !! "implicit" = None
    /\ engine_request_validator e
       = engine_request_validator (AuthorizationCodeGrant request_validator)
    /\ response_types e
       = response_types (AuthorizationCodeGrant request_validator)
    /\ authorization_validators e
       = authorization_validators (AuthorizationCodeGrant request_validator)
         ++ ["openid_authorization_validator"]
    /\ token_modifiers e
       = token_modifiers (AuthorizationCodeGrant request_validator)
         ++ ["add_id_token"].
Proof.
  eexists _, _. split; [apply auth_code_construction |].
  split_and!; try reflexivity; solve_lookup.
Qed.

Lemma implicit_init_succeeds (request_validator : option RequestValidator) :
  "create_id_token" ∈ GrantTypeBase_names ->
  OpenIDConnectImplicit_init GrantTypeBase_names RequestValidator_new
    ImplicitGrant request_validator ∅
  = (Return tt,
     <["implicit" :=
         Engine (register_token_modifier "create_id_token"
                   (register_authorization_validator
                      "openid_implicit_authorization_validator"
                      (register_authorization_validator
                         "openid_authorization_validator"
                         (register_response_type "id_token token"
                            (register_response_type "id_token"
                               (ImplicitGrant request_validator))))))]>
       (<["request_validator" :=
            Validator (or_default RequestValidator_new request_validator)]>
          ∅)).
Proof.
  intros Hin. unfold OpenIDConnectImplicit_init.
  erewrite bind_run by apply setattr_run.
  erewrite bind_run by apply setattr_run.
  do 2 (erewrite bind_run
          by (apply do_register_response_type_run; solve_lookup)).
  erewrite bind_run
    by (apply do_register_authorization_validator_run;
        [solve_lookup | solve_lookup | apply base_defines_validator]).
  erewrite bind_run
    by (apply do_register_authorization_validator_run;
        [solve_lookup | solve_lookup
        | apply implicit_defines_implicit_validator]).
  erewrite do_register_token_modifier_run;
    [| solve_lookup | solve_lookup | by apply base_name_found].
  by rewrite !insert_insert_eq.
Qed.

(** X14. [OpenIDConnectImplicit] can be built exactly when the base class
    gives an attribute [create_id_token].  The engine of the object then
    has the response types [id_token] and [id_token token] added, the two
    validators added in the order of their registration, and
    [create_id_token] added as token modifier. *)
Theorem implicit_constructs_iff (request_validator : option RequestValidator) :
  ((exists self,
      OpenIDConnectImplicit GrantTypeBase_names RequestValidator_new
        ImplicitGrant request_validator = Return self)
   <-> "create_id_token" ∈ GrantTypeBase_names)
  /\ forall self,
       OpenIDConnectImplicit GrantTypeBase_names RequestValidator_new
         ImplicitGrant request_validator = Return self ->
       exists e,
         self !! "implicit" = Some (Engine e)
         /\ response_types e
            = response_types (ImplicitGrant request_validator)
              ++ ["id_token"; "id_token token"]
         /\ authorization_validators e
            = authorization_validators (ImplicitGrant request_validator)
              ++ ["openid_authorization_validator";
                  "openid_implicit_authorization_validator"]
         /\ token_modifiers e
            = token_modifiers (ImplicitGrant request_validator)
              ++ ["create_id_token"].
Proof.
  assert (Hno : "create_id_token" ∉ GrantTypeBase_names ->
    forall self,
      OpenIDConnectImplicit GrantTypeBase_names RequestValidator_new
        ImplicitGrant request_validator <> Return self).
  { intros Hno self.
    pose proof (implicit_init_fails GrantTypeBase_names RequestValidator_new
                  ImplicitGrant request_validator Hno) as Hf.
    unfold OpenIDConnectImplicit, construct.
    destruct (OpenIDConnectImplicit_init _ _ _ _ ∅) as [o s]. simpl in Hf.
    by subst o. }
  assert (Hyes : "create_id_token" ∈ GrantTypeBase_names ->
    OpenIDConnectImplicit GrantTypeBase_names RequestValidator_new
      ImplicitGrant request_validator
    = Return (snd (OpenIDConnectImplicit_init GrantTypeBase_names
                     RequestValidator_new ImplicitGrant request_validator ∅))).
  { intros Hin. unfold OpenIDConnectImplicit, construct.
    by rewrite (implicit_init_succeeds request_validator Hin). }
  split.
  - split.
    + intros [self Hself].
      destruct (decide ("create_id_token" ∈ GrantTypeBase_names)) as [|Hn];
        [done |]. by destruct (Hno Hn self).
    + intros Hin. eexists. by apply Hyes.
  - intros self Hself.
    destruct (decide ("create_id_token" ∈ GrantTypeBase_names)) as [Hin|Hn];
      [| by destruct (Hno Hn self)].
    rewrite (Hyes Hin), (implicit_init_succeeds request_validator Hin) in Hself.
    injection Hself as <-. eexists. split; [solve_lookup |].
    simpl. rewrite <- !app_assoc. split_and!; reflexivity.
Qed.

Lemma hybrid_lookup_name (name : string) :
  name ∉ OpenIDConnectHybrid_names ->
  name ∉ OpenIDConnectBase_names ->
  existsb (fun ns => bool_decide (name ∈ ns))
    (OpenIDConnectHybrid_mro GrantTypeBase_names)
  = bool_decide (name ∈ GrantTypeBase_names).
Proof.
  intros H1 H2. simpl.
  rewrite (bool_decide_eq_false_2 _ H1), (bool_decide_eq_false_2 _ H2).
  simpl. by rewrite orb_false_r.
Qed.

(** The outcome of [OpenIDConnectHybrid.__init__], by what the base class
    gives. *)
Lemma hybrid_init_outcome (request_validator : option RequestValidator) :
  fst (OpenIDConnectHybrid_init GrantTypeBase_names RequestValidator_new
         AuthorizationCodeGrant ImplicitGrant request_validator ∅)
  = if bool_decide ("openid_implicit_authorization_validator"
                    ∈ GrantTypeBase_names)
    then if bool_decide ("create_id_token" ∈ GrantTypeBase_names)
         then Return tt
         else Raise (AttributeError "create_id_token")
    else Raise (AttributeError "openid_implicit_authorization_validator").
Proof.
  unfold OpenIDConnectHybrid_init.
  erewrite bind_run by apply setattr_run.
  erewrite bind_run by apply setattr_run.
  do 3 (erewrite bind_run
          by (apply do_register_response_type_run; solve_lookup)).
  erewrite bind_run
    by (apply do_register_authorization_validator_run;
        [solve_lookup | solve_lookup | apply base_defines_validator]).
  erewrite bind_run
    by (apply do_register_token_modifier_run;
        [solve_lookup | solve_lookup | apply base_defines_add_id_token]).
  erewrite bind_run by apply setattr_run.
  do 2 (erewrite bind_run
          by (apply do_register_response_type_run; solve_lookup)).
  erewrite bind_run
    by (apply do_register_authorization_validator_run;
        [solve_lookup | solve_lookup | apply base_defines_validator]).
  assert (Hv : existsb
      (fun ns => bool_decide ("openid_implicit_authorization_validator" ∈ ns))
      (OpenIDConnectHybrid_mro GrantTypeBase_names)
    = bool_decide ("openid_implicit_authorization_validator"
                   ∈ GrantTypeBase_names))
    by (apply hybrid_lookup_name; solve_names_not).
  assert (Hc : existsb (fun ns => bool_decide ("create_id_token" ∈ ns))
      (OpenIDConnectHybrid_mro GrantTypeBase_names)
    = bool_decide ("create_id_token" ∈ GrantTypeBase_names))
    by (apply hybrid_lookup_name; solve_names_not).
  destruct (bool_decide ("openid_implicit_authorization_validator"
                         ∈ GrantTypeBase_names)).
  - erewrite bind_run
      by (apply do_register_authorization_validator_run;
          [solve_lookup | solve_lookup | apply Hv]).
    destruct (bool_decide ("create_id_token" ∈ GrantTypeBase_names)).
    + by erewrite do_register_token_modifier_run;
        [| solve_lookup | solve_lookup | apply Hc].
    + by erewrite do_register_token_modifier_missing;
        [| solve_lookup | solve_lookup | apply Hc].
  - by erewrite bind_run_raise
      by (eapply do_register_authorization_validator_missing;
          [solve_lookup | solve_lookup | apply Hv]).
Qed.

(** X15. [OpenIDConnectHybrid] can be built exactly when the base class
    gives both [openid_implicit_authorization_validator] and
    [create_id_token]: the class and [OpenIDConnectBase] define neither,
    and its constructor registers both on the implicit engine. *)
Theorem hybrid_constructs_iff (request_validator : option RequestValidator) :
  (exists self,
     OpenIDConnectHybrid GrantTypeBase_names RequestValidator_new
       AuthorizationCodeGrant ImplicitGrant request_validator = Return self)
  <-> ("openid_implicit_authorization_validator" ∈ GrantTypeBase_names
       /\ "create_id_token" ∈ GrantTypeBase_names).
Proof.
  pose proof (hybrid_init_outcome request_validator) as Hout.
  unfold OpenIDConnectHybrid, construct.
  destruct (OpenIDConnectHybrid_init _ _ _ _ _ ∅) as [o s]. simpl in Hout.
  subst o.
  destruct (bool_decide ("openid_implicit_authorization_validator"
                         ∈ GrantTypeBase_names)) eqn:Ev;
    [apply bool_decide_eq_true in Ev | apply bool_decide_eq_false in Ev].
  - destruct (bool_decide ("create_id_token" ∈ GrantTypeBase_names)) eqn:Ec;
      [apply bool_decide_eq_true in Ec | apply bool_decide_eq_false in Ec].
    + split; [done |]. intros _. by exists s.
    + split; [by intros [self [=]] | by intros [_ ?]].
  - split; [by intros [self [=]] | by intros [? _]].
Qed.

End FurtherComposerProperties.

(** * The further properties at sample requests *)

Lemma silent_authorization_only_after_login_witness :
  silent_request = silent_request
  /\ "openid" ∈ scopes silent_request
  /\ prompt silent_request = Some "none"
  /\ truthy_str (id_token_hint silent_request) = true
  /\ validate_silent_login (answering true false true) silent_request
     = Return true
  /\ exists rest,
       calls (snd (validate json_loads (answering true false true)
                     silent_request))
       = SilentLogin silent_request :: SilentAuthorization silent_request
         :: rest.
Proof.
  apply (silent_authorization_only_after_login json_loads
           (answering true false true) silent_request silent_request).
  apply list_elem_of_further, list_elem_of_here.
Defined.

Lemma user_match_asked_last_witness :
  "openid" ∈ scopes interactive_request
  /\ passes_prompt_checks (answering true true false) interactive_request
  /\ decode_claims json_loads (claims interactive_request)
     = Return (PyDict [])
  /\ None = id_token_hint interactive_request
  /\ ["openid"] = scopes interactive_request
  /\ set_claims (PyDict []) interactive_request
     = set_claims (PyDict []) interactive_request
  /\ calls (snd (validate json_loads (answering true true false)
                   interactive_request))
     = prompt_calls interactive_request
       ++ [UserMatch None ["openid"] (PyDict [])
             (set_claims (PyDict []) interactive_request)].
Proof.
  apply (user_match_asked_last json_loads (answering true true false)
           interactive_request).
  apply list_elem_of_here.
Defined.

Lemma validator_exception_propagates_witness :
  validate json_loads unimplemented silent_request
  = (Raise (OtherError "NotImplementedError"),
     {| request := silent_request; calls := [SilentLogin silent_request] |}).
Proof.
  assert (Hin : "openid" ∈ scopes silent_request) by apply list_elem_of_here.
  apply (proj1 (validator_exception_propagates json_loads unimplemented
                  silent_request (OtherError "NotImplementedError") Hin));
    reflexivity.
Defined.

Lemma revalidation_raises_type_error_witness :
  validate json_loads (answering true true true)
    (set_claims (PyDict [("id_token", PyDict [("auth_time", PyNone)])])
       claims_request)
  = (Raise TypeError,
     {| request :=
          set_claims (PyDict [("id_token", PyDict [("auth_time", PyNone)])])
            claims_request;
        calls := [] |}).
Proof.
  apply (revalidation_raises_type_error json_loads
           (answering true true true) claims_request
           (request_info_of claims_request)
           (snd (validate json_loads (answering true true true)
                   claims_request))).
  - reflexivity.
  - reflexivity.
  - intros s. vm_compute. discriminate.
  - left. vm_compute. discriminate.
Defined.

Lemma revalidation_with_empty_claims_witness :
  validate json_loads (answering true true true)
    (set_claims (PyDict []) interactive_request)
  = (Return (Some (request_info_of interactive_request)),
     {| request := set_claims (PyDict []) interactive_request;
        calls := [UserMatch None ["openid"] (PyDict [])
                    (set_claims (PyDict []) interactive_request)] |}).
Proof.
  apply (revalidation_with_empty_claims json_loads
           (answering true true true) interactive_request
           (request_info_of interactive_request)
           (snd (validate json_loads (answering true true true)
                   interactive_request))).
  - reflexivity.
  - reflexivity.
  - left. discriminate.
  - reflexivity.
Defined.

Lemma request_info_holds_words_witness :
  Forall (fun w => is_word w = true) ["login"; "consent"]
  /\ Forall (fun w => is_word w = true) ["fr-CA"; "fr"; "en"]
  /\ "loginconsent"
     = string_filter (fun c => negb (isspace c)) "login consent"
  /\ "fr-CAfren"
     = string_filter (fun c => negb (isspace c)) "fr-CA fr en".
Proof.
  apply (request_info_holds_words json_loads (answering true true true)
           interactive_request (request_info_of interactive_request)).
  reflexivity.
Defined.

Lemma request_info_round_trip_witness :
  ri_prompt (request_info_of interactive_request) = ["login"; "consent"]
  /\ ri_ui_locales (request_info_of interactive_request)
     = ["fr-CA"; "fr"; "en"].
Proof.
  destruct (request_info_round_trip json_loads (answering true true true)
              interactive_request (request_info_of interactive_request)
              eq_refl) as [Hp Hl].
  split.
  - apply (Hp ["login"; "consent"]); [| reflexivity].
    repeat constructor.
  - apply (Hl ["fr-CA"; "fr"; "en"]); [| reflexivity].
    repeat constructor.
Defined.

Lemma request_info_empty_lists_witness :
  ri_prompt (request_info_of blank_prompt_request) = []
  /\ ri_ui_locales (request_info_of blank_prompt_request) = [].
Proof.
  destruct (request_info_empty_lists json_loads (answering true true true)
              blank_prompt_request (request_info_of blank_prompt_request)
              eq_refl) as [Hp Hl].
  split.
  - apply Hp. right. exists "  ". split; reflexivity.
  - apply Hl. left. reflexivity.
Defined.

Lemma other_prompts_skip_silent_checks_witness :
  fst (validate json_loads (answering false false true) mixed_prompt_request)
  = Return (Some (request_info_of mixed_prompt_request))
  /\ ri_prompt (request_info_of mixed_prompt_request) = ["none"; "login"]
  /\ calls (snd (validate json_loads (answering false false true)
                   mixed_prompt_request))
     = [UserMatch None ["openid"] (PyDict [])
          (set_claims (PyDict []) mixed_prompt_request)].
Proof.
  assert (Hin : "openid" ∈ scopes mixed_prompt_request)
    by apply list_elem_of_here.
  assert (Hp : prompt mixed_prompt_request <> Some "none") by discriminate.
  destruct (other_prompts_skip_silent_checks json_loads
              (answering false false true) mixed_prompt_request Hin Hp)
    as (Hrun & _ & Hok).
  split_and!.
  - apply (Hok (PyDict [])); reflexivity.
  - reflexivity.
  - rewrite Hrun. reflexivity.
Defined.

Lemma answering_answers_only (login consent user : bool) :
  answers_only (answering login consent user).
Proof.
  unfold answers_only. split_and!; intros; eexists; reflexivity.
Defined.

Lemma exception_tells_cause_witness :
  "openid" ∈ scopes silent_request
  /\ prompt silent_request = Some "none"
  /\ truthy_str (id_token_hint silent_request) = true
  /\ validate_silent_login (answering true false true) silent_request
     = Return true
  /\ validate_silent_authorization (answering true false true) silent_request
     = Return false
  /\ None = (None : option string).
Proof.
  destruct (exception_tells_cause json_loads (answering true false true)
              silent_request None (answering_answers_only true false true))
    as (_ & Hconsent & _).
  apply Hconsent. reflexivity.
Defined.

Lemma decoding_errors_witness :
  fst (validate json_loads (answering true true true) malformed_request)
  = Raise ValueError.
Proof.
  destruct (decoding_errors json_loads (answering true true true)
              malformed_request (answering_answers_only true true true))
    as [Hvalue _].
  apply Hvalue. split_and!.
  - apply list_elem_of_here.
  - left. discriminate.
  - exists "{". split_and!; [reflexivity | discriminate | reflexivity].
Defined.
